(** * IDTReeS dataset adapter (torchgeo/datasets/idtrees.py)

    A shallow embedding of the [IDTReeS] dataset class: the species class
    table, dataset verification ([_verify]), index construction ([_load]),
    the per-scene loader ([__getitem__], [_load_boxes], [_load_target]) and
    the box filter ([_filter_boxes]), with the properties stated about them.

    Python exceptions are values of [exn]; a call that may raise returns a
    [result].  Python dictionaries whose iteration order the code never
    observes are [gmap]s; the geometry dictionary, which the test split
    iterates over, is an insertion-ordered association list. *)

From stdpp Require Import base option list sorting gmap strings fin_maps.
From Stdlib Require Import ZArith Lia Ascii.

Local Open Scope Z_scope.

(** ** Exceptions and results *)

Inductive exn : Type :=
| DatasetNotFoundError
| DependencyNotFoundError
| KeyError
| IndexError
| ValueError
| TypeError
| AttributeError
| ExternalError (msg : string).

Inductive result (A : Type) : Type :=
| Ok (a : A)
| Raise (e : exn).
Arguments Ok {A} a.
Arguments Raise {A} e.

#[global] Instance result_ret : MRet result := fun _ a => Ok a.
#[global] Instance result_bind : MBind result := fun _ _ f m =>
  match m with
  | Ok a => f a
  | Raise e => Raise e
  end.
#[global] Instance result_fmap : FMap result := fun _ _ f m =>
  match m with
  | Ok a => Ok (f a)
  | Raise e => Raise e
  end.

(** [[f(x) for x in xs]] where [f] may raise: the first exception wins. *)
Fixpoint comprehension {A B : Type} (f : A -> result B) (xs : list A)
  : result (list B) :=
  match xs with
  | [] => Ok []
  | x :: xs' => y ← f x; ys ← comprehension f xs'; Ok (y :: ys)
  end.

Definition of_option {A : Type} (e : exn) (o : option A) : result A :=
  match o with
  | Some a => Ok a
  | None => Raise e
  end.

(** ** Tensors

    Box coordinates come from [rasterio]'s [index], which returns integer
    (row, col) pairs, so the tensors built by [torch.tensor] are int64 and
    are modelled over [Z].  [torch.tensor] of a non-empty list of 4-element
    lists has shape [N, 4]; of the empty list it has shape [0] (one
    dimension). *)

Record Box : Type := mkBox { xmin : Z; ymin : Z; xmax : Z; ymax : Z }.

#[global] Instance Box_eq_dec : EqDecision Box.
Proof. solve_decision. Defined.

Inductive BoxTensor : Type :=
| Tensor0                      (* shape [0]: what torch.tensor([]) returns *)
| TensorN4 (rows : list Box).  (* shape [N, 4], N >= 0 *)

#[global] Instance BoxTensor_eq_dec : EqDecision BoxTensor.
Proof. solve_decision. Defined.

(** [torch.tensor(boxes)] for a Python list of [xmin, ymin, xmax, ymax] lists. *)
Definition torch_tensor_boxes (boxes : list Box) : BoxTensor :=
  match boxes with
  | [] => Tensor0
  | _ :: _ => TensorN4 boxes
  end.

(** A one-dimensional int64 tensor (labels, index tensors). *)
Definition Tensor1 : Type := list Z.

(** [t.clamp(min=lo, max=hi)] on one element: [min(max(x, lo), hi)]. *)
Definition clamp (lo hi x : Z) : Z := Z.min (Z.max x lo) hi.

(** ** torchvision.ops.boxes

    [clip_boxes_to_image] clamps the x columns (0 and 2) with
    [clamp(min=0, max=width)] and the y columns (1 and 3) with
    [clamp(min=0, max=height)], where [size = (height, width)], and gives
    the result the shape of its input. *)

Definition clip_box (size : Z * Z) (b : Box) : Box :=
  let '(height, width) := size in
  {| xmin := clamp 0 width (xmin b);
     ymin := clamp 0 height (ymin b);
     xmax := clamp 0 width (xmax b);
     ymax := clamp 0 height (ymax b) |}.

Definition clip_boxes_to_image (boxes : BoxTensor) (size : Z * Z) : BoxTensor :=
  match boxes with
  | Tensor0 => Tensor0
  | TensorN4 rows => TensorN4 (clip_box size <$> rows)
  end.

Definition box_width (b : Box) : Z := xmax b - xmin b.
Definition box_height (b : Box) : Z := ymax b - ymin b.

(** [keep = (ws >= min_size) & (hs >= min_size)] *)
Definition keep_box (min_size : Z) (b : Box) : bool :=
  (min_size <=? box_width b) && (min_size <=? box_height b).

(** [torch.where(keep)[0]]: the positions of the true entries, ascending. *)
Fixpoint where_true (i : Z) (keep : list bool) : Tensor1 :=
  match keep with
  | [] => []
  | k :: keep' => if k then i :: where_true (i + 1) keep'
                  else where_true (i + 1) keep'
  end.

(** [remove_small_boxes] reads [boxes[:, 2]], [boxes[:, 0]], ...: on a
    one-dimensional tensor the second index raises [IndexError]. *)
Definition remove_small_boxes (boxes : BoxTensor) (min_size : Z) : result Tensor1 :=
  match boxes with
  | Tensor0 => Raise IndexError
  | TensorN4 rows => Ok (where_true 0 (keep_box min_size <$> rows))
  end.

(** Indexing along the first dimension with an index tensor, [t[indices]].
    The indices produced by [torch.where] are never negative. *)
Definition gather {A : Type} (l : list A) (indices : Tensor1) : result (list A) :=
  comprehension (fun i => of_option IndexError
                            (if decide (0 <= i) then l !! Z.to_nat i else None))
                indices.

Definition index_boxes (boxes : BoxTensor) (indices : Tensor1) : result BoxTensor :=
  match boxes with
  | Tensor0 => _ ← gather ([] : list Z) indices; Ok Tensor0
  | TensorN4 rows => TensorN4 <$> gather rows indices
  end.

(** ** The box filter *)

Definition _filter_boxes (image_size : Z * Z) (min_size : Z)
    (boxes : BoxTensor) (labels : option Tensor1)
  : result (BoxTensor * option Tensor1) :=
  let boxes := clip_boxes_to_image boxes image_size in
  indices ← remove_small_boxes boxes min_size;
  boxes ← index_boxes boxes indices;
  match labels with
  | Some labels => labels ← gather labels indices; Ok (boxes, Some labels)
  | None => Ok (boxes, None)
  end.

(** ** The species class table *)

(** The [classes] dictionary, in the order of its literal. *)
Definition classes : list (string * string) :=
  [ ("ACPE", "Acer pensylvanicum L.");
    ("ACRU", "Acer rubrum L.");
    ("ACSA3", "Acer saccharum Marshall");
    ("AMLA", "Amelanchier laevis Wiegand");
    ("BETUL", "Betula sp.");
    ("CAGL8", "Carya glabra (Mill.) Sweet");
    ("CATO6", "Carya tomentosa (Lam.) Nutt.");
    ("FAGR", "Fagus grandifolia Ehrh.");
    ("GOLA", "Gordonia lasianthus (L.) Ellis");
    ("LITU", "Liriodendron tulipifera L.");
    ("LYLU3", "Lyonia lucida (Lam.) K. Koch");
    ("MAGNO", "Magnolia sp.");
    ("NYBI", "Nyssa biflora Walter");
    ("NYSY", "Nyssa sylvatica Marshall");
    ("OXYDE", "Oxydendrum sp.");
    ("PEPA37", "Persea palustris (Raf.) Sarg.");
    ("PIEL", "Pinus elliottii Engelm.");
    ("PIPA2", "Pinus palustris Mill.");
    ("PINUS", "Pinus sp.");
    ("PITA", "Pinus taeda L.");
    ("PRSE2", "Prunus serotina Ehrh.");
    ("QUAL", "Quercus alba L.");
    ("QUCO2", "Quercus coccinea");
    ("QUGE2", "Quercus geminata Small");
    ("QUHE2", "Quercus hemisphaerica W. Bartram ex Willd.");
    ("QULA2", "Quercus laevis Walter");
    ("QULA3", "Quercus laurifolia Michx.");
    ("QUMO4", "Quercus montana Willd.");
    ("QUNI", "Quercus nigra L.");
    ("QURU", "Quercus rubra L.");
    ("QUERC", "Quercus sp.");
    ("ROPS", "Robinia pseudoacacia L.");
    ("TSCA", "Tsuga canadensis (L.) Carriere") ].

(** Iterating over a dictionary yields its keys. *)
Definition class_codes : list string := fst <$> classes.

(** [enumerate(xs)] *)
Fixpoint enumerate_from {A : Type} (i : Z) (xs : list A) : list (Z * A) :=
  match xs with
  | [] => []
  | x :: xs' => (i, x) :: enumerate_from (i + 1) xs'
  end.
Definition enumerate {A : Type} (xs : list A) : list (Z * A) := enumerate_from 0 xs.

(** [{c: i for i, c in enumerate(self.classes)}]: entries are stored in
    iteration order, a later one replacing an earlier one with its key. *)
Definition class2idx : gmap string Z :=
  foldl (fun d '(i, c) => <[c := i]> d) ∅ (enumerate class_codes).

(** [{i: c for i, c in enumerate(self.classes)}] *)
Definition idx2class : gmap Z string :=
  foldl (fun d '(i, c) => <[i := c]> d) ∅ (enumerate class_codes).

(** [len(self.classes)] *)
Definition num_classes : Z := Z.of_nat (length classes).

(** ** Paths and strings (posixpath, str) *)

(** [os.path.join(a, b)] *)
Definition path_join (a b : string) : string :=
  if String.prefix "/" b then b
  else if bool_decide (a = "") || String.prefix "/" (String.rev a)
       then a +:+ b
       else a +:+ "/" +:+ b.

(** [os.path.join(a, b, c, ...)] *)
Definition path_join_all (a : string) (bs : list string) : string :=
  foldl path_join a bs.

(** [os.path.basename(p)]: what follows the last slash. *)
Fixpoint basename_from (acc p : string) : string :=
  match p with
  | EmptyString => acc
  | String c p' =>
      if Ascii.eqb c "/"%char then basename_from "" p'
      else basename_from (acc +:+ String c "") p'
  end.
Definition basename (p : string) : string := basename_from "" p.

(** [s.replace(old, new)] for a non-empty [old]: occurrences are replaced
    from left to right without overlap.  [skip] counts the characters of
    an occurrence that are still to be passed over. *)
Fixpoint replace_from (old new s : string) (skip : nat) : string :=
  match s with
  | EmptyString => EmptyString
  | String c s' =>
      match skip with
      | S k => replace_from old new s' k
      | O =>
          if String.prefix old s
          then new +:+ replace_from old new s' (String.length old - 1)
          else String c (replace_from old new s' 0)
      end
  end.

(** With an empty [old] Python puts [new] before every character and at
    the end. *)
Fixpoint intersperse (new s : string) : string :=
  match s with
  | EmptyString => new
  | String c s' => new +:+ String c (intersperse new s')
  end.

Definition replace (s old new : string) : string :=
  if bool_decide (old = "") then intersperse new s
  else replace_from old new s 0.

(** ** Splits, tasks and the class attributes *)

Inductive Split : Type := train | test.
Inductive Task : Type := task1 | task2.

#[global] Instance Split_eq_dec : EqDecision Split.
Proof. solve_decision. Defined.
#[global] Instance Task_eq_dec : EqDecision Task.
Proof. solve_decision. Defined.

Definition task_name (t : Task) : string :=
  match t with
  | task1 => "task1"
  | task2 => "task2"
  end.

Record Metadata : Type := mkMetadata {
  url : string;
  md5 : string;
  filename : string
}.

Definition metadata (split : Split) : Metadata :=
  match split with
  | train =>
      {| url := "https://zenodo.org/record/3934932/files/IDTREES_competition_train_v2.zip?download=1";
         md5 := "5ddfa76240b4bb6b4a7861d1d31c299c";
         filename := "IDTREES_competition_train_v2.zip" |}
  | test =>
      {| url := "https://zenodo.org/record/3934932/files/IDTREES_competition_test_v2.zip?download=1";
         md5 := "b108931c84a70f2a38a8234290131c9b";
         filename := "IDTREES_competition_test_v2.zip" |}
  end.

Definition directories (split : Split) : list string :=
  match split with
  | train => ["train"]
  | test => ["task1"; "task2"]
  end.

Definition image_size : Z * Z := (200, 200).

(** ** Python lists and insertion-ordered dictionaries *)

(** [xs[i]] for a Python list: a negative index counts from the end. *)
Definition list_getitem {A : Type} (xs : list A) (i : Z) : result A :=
  let n := Z.of_nat (length xs) in
  if decide (0 <= i < n) then of_option IndexError (xs !! Z.to_nat i)
  else if decide (- n <= i < 0) then of_option IndexError (xs !! Z.to_nat (n + i))
  else Raise IndexError.

(** [min(xs)] and [max(xs)]: [ValueError] on an empty sequence. *)
Definition py_min (xs : list Z) : result Z :=
  match xs with
  | [] => Raise ValueError
  | x :: xs' => Ok (foldl Z.min x xs')
  end.
Definition py_max (xs : list Z) : result Z :=
  match xs with
  | [] => Raise ValueError
  | x :: xs' => Ok (foldl Z.max x xs')
  end.

(** [d[k] = v]: an existing key keeps its position, a new one goes last. *)
Fixpoint dict_setitem {V : Type} (k : Z) (v : V) (d : list (Z * V)) : list (Z * V) :=
  match d with
  | [] => [(k, v)]
  | (k', v') :: d' =>
      if decide (k' = k) then (k, v) :: d' else (k', v') :: dict_setitem k v d'
  end.

(** [d[k]] *)
Fixpoint dict_getitem {V : Type} (k : Z) (d : list (Z * V)) : result V :=
  match d with
  | [] => Raise KeyError
  | (k', v) :: d' => if decide (k' = k) then Ok v else dict_getitem k d'
  end.

(** ** Annotation tables and geometries *)

(** A row of [Field/train_data.csv]: the individual's id, its species code
    and the remaining columns. *)
Record LabelRow : Type := mkLabelRow {
  l_indvdID : string;
  l_taxonID : string;
  l_rest : list string
}.

(** A row of [Field/itc_rsFile.csv]. *)
Record MappingRow : Type := mkMappingRow {
  m_id : Z;
  m_indvdID : string;
  m_rsFile : string
}.

(** A row of the joined table.  [indvdID] is the index; [row_id] and
    [rsFile] are [None] (NaN) for a label row without a mapping row. *)
Record Row : Type := mkRow {
  indvdID : string;
  taxonID : string;
  rest : list string;
  row_id : option Z;
  rsFile : option string
}.

(** [df_labels.join(df_mapping, on='indvdID')], a left join on the index:
    left rows in order, each with its matching right rows in order. *)
Definition join_row (mapping : list MappingRow) (l : LabelRow) : list Row :=
  match filter (fun m => m_indvdID m = l_indvdID l) mapping with
  | [] => [ {| indvdID := l_indvdID l; taxonID := l_taxonID l; rest := l_rest l;
               row_id := None; rsFile := None |} ]
  | ms => (fun m => {| indvdID := l_indvdID l; taxonID := l_taxonID l;
                       rest := l_rest l;
                       row_id := Some (m_id m); rsFile := Some (m_rsFile m) |}) <$> ms
  end.

Definition join (labels : list LabelRow) (mapping : list MappingRow) : list Row :=
  labels ≫= join_row mapping.

(** [drop_duplicates] compares the columns of two rows, not their index. *)
Definition same_columns (r1 r2 : Row) : bool :=
  bool_decide (taxonID r1 = taxonID r2) && bool_decide (rest r1 = rest r2)
  && bool_decide (row_id r1 = row_id r2) && bool_decide (rsFile r1 = rsFile r2).

(** [df.drop_duplicates()]: the first of equal rows is kept. *)
Fixpoint drop_duplicates_from (seen rows : list Row) : list Row :=
  match rows with
  | [] => []
  | r :: rows' =>
      if existsb (same_columns r) seen then drop_duplicates_from seen rows'
      else r :: drop_duplicates_from (r :: seen) rows'
  end.
Definition drop_duplicates (rows : list Row) : list Row :=
  drop_duplicates_from [] rows.

(** A feature of a shape file: [feature['properties']] with the two keys
    the code reads ([None]: the key is absent), and
    [feature['geometry']['coordinates']], a list of rings of (x, y) points. *)
Record Feature (Coord : Type) : Type := mkFeature {
  prop_id : option Z;
  prop_plotID : option string;
  coordinates : list (list (Coord * Coord))
}.
Arguments mkFeature {Coord} _ _ _.
Arguments prop_id {Coord} _.
Arguments prop_plotID {Coord} _.
Arguments coordinates {Coord} _.

(** A raster as [_load_image] returns it: a tensor of shape
    (bands, height, width). *)
Record Raster (Pixels : Type) : Type := mkRaster {
  shape : Z * Z * Z;
  pixels : Pixels
}.
Arguments mkRaster {Pixels} _ _.
Arguments shape {Pixels} _.
Arguments pixels {Pixels} _.

(** ** The environment

    What the class takes from outside this file: the file system, the
    helpers of [.utils] and the raster, vector, table and point-cloud
    libraries. *)

Class World : Type := {
  Coord : Type;   (* a geographic coordinate *)
  Pixels : Type;  (* the contents of a raster array *)
  Points : Type;  (* the contents of a 3 x N point array *)
  FS : Type;      (* the state of the disk *)
  path_exists : FS -> string -> bool;                  (* os.path.exists *)
  glob : FS -> string -> list string;                  (* glob.glob *)
  extract_archive : string -> FS -> result FS;         (* .utils.extract_archive *)
  download_url :                                       (* .utils.download_url *)
    string -> string -> string -> option string -> FS -> result FS;
  lazy_import : string -> result unit;                 (* .utils.lazy_import *)
  read_csv_labels : FS -> string -> result (list LabelRow);     (* pd.read_csv *)
  read_csv_mapping : FS -> string -> result (list MappingRow);  (* pd.read_csv *)
  fiona_open : FS -> string -> result (list (Feature Coord));   (* fiona.open *)
  rasterio_read :                                      (* rasterio.open, f.read *)
    FS -> string -> Z * Z -> result (Raster Pixels);
  rasterio_index :                                     (* rasterio.open, f.index *)
    FS -> string -> result (Coord -> Coord -> Z * Z);
  to_uint8 : Pixels -> Pixels;                         (* Tensor.to(torch.uint8) *)
  laspy_read : FS -> string -> result Points           (* laspy.read, np.stack *)
}.

(** ** The dataset object *)

Section Dataset.
Context `{W : World}.

(** A value stored in a sample dictionary. *)
Inductive Value : Type :=
| VRaster (r : Raster Pixels)
| VPoints (p : Points)
| VBoxes (b : BoxTensor)
| VLabel (l : Tensor1)
| VNone.

(** The attributes of [self]; [geometries] and [labels] are [None] where
    [_load] sets them to [None]. *)
Record IDTReeS : Type := mkIDTReeS {
  root : string;
  split : Split;
  task : Task;
  transforms : option (gmap string Value -> result (gmap string Value));
  download : bool;
  checksum : bool;
  images : list string;
  geometries : option (list (Z * Feature Coord));
  labels : option (list Row)
}.

(** *** Verification and acquisition *)

Definition _verify (root : string) (split : Split) (download checksum : bool)
    (fs : FS) : result FS :=
  let url := url (metadata split) in
  let md5 := md5 (metadata split) in
  let filename := filename (metadata split) in
  let directories := directories split in
  (* Check if the files already exist *)
  let exists_ := (fun directory => path_exists fs (path_join root directory))
                   <$> directories in
  if forallb (fun b => b) exists_ then Ok fs
  else
    (* Check if zip file already exists (if so then extract) *)
    let filepath := path_join root filename in
    if path_exists fs filepath then extract_archive filepath fs
    else
      (* Check if the user requested to download the dataset *)
      if negb download then Raise DatasetNotFoundError
      else
        (* Download and extract the dataset *)
        fs ← download_url url root filename
               (if checksum then Some md5 else None) fs;
        let filepath := path_join root filename in
        extract_archive filepath fs.

(** Every directory of the split exists under [root]. *)
Definition all_present (root : string) (split : Split) (fs : FS) : Prop :=
  forall d, d ∈ directories split -> path_exists fs (path_join root d) = true.

(** *** Index construction *)

Definition _load_labels (fs : FS) (directory : string) : result (list Row) :=
  let path_mapping := path_join_all directory ["Field"; "itc_rsFile.csv"] in
  let path_labels := path_join_all directory ["Field"; "train_data.csv"] in
  df_mapping ← read_csv_mapping fs path_mapping;
  df_labels ← read_csv_labels fs path_labels;
  let df := join df_labels df_mapping in
  let df := drop_duplicates df in
  Ok df.

(** One step of the inner loop of [_load_geometries]. *)
Definition add_feature (split : Split)
    (st : Z * list (Z * Feature Coord)) (feature : Feature Coord)
  : result (Z * list (Z * Feature Coord)) :=
  let '(i, features) := st in
  match split with
  | train =>
      k ← of_option KeyError (prop_id feature);
      Ok (i, dict_setitem k feature features)
  | test => Ok (i + 1, dict_setitem i feature features)
  end.

(** [for x in xs: st = step(st, x)] where a step may raise. *)
Fixpoint for_each {S A : Type} (step : S -> A -> result S) (st : S) (xs : list A)
  : result S :=
  match xs with
  | [] => Ok st
  | x :: xs' => st' ← step st x; for_each step st' xs'
  end.

Definition _load_geometries (split : Split) (fs : FS) (directory : string)
  : result (list (Z * Feature Coord)) :=
  let filepaths := glob fs (path_join_all directory ["ITC"; "*.shp"]) in
  st ← for_each
         (fun st path => src ← fiona_open fs path; for_each (add_feature split) st src)
         (0, []) filepaths;
  Ok (snd st).

Definition _load (split : Split) (task : Task) (fs : FS) (root : string)
  : result (list string * option (list (Z * Feature Coord)) * option (list Row)) :=
  '(directory, geoms, labels) ←
    match split with
    | train =>
        d ← list_getitem (directories split) 0;
        let directory := path_join root d in
        labels ← _load_labels fs directory;
        geoms ← _load_geometries split fs directory;
        Ok (directory, Some geoms, Some labels)
    | test =>
        let directory := path_join root (task_name task) in
        match task with
        | task1 => Ok (directory, None, None)
        | task2 =>
            geoms ← _load_geometries split fs directory;
            Ok (directory, Some geoms, None)
        end
    end;
  let images := glob fs (path_join_all directory ["RemoteSensing"; "RGB"; "*.tif"]) in
  Ok (images, geoms, labels).

(** [__init__]: the object and the disk as verification left it. *)
Definition __init__ (root : string) (split : Split) (task : Task)
    (transforms : option (gmap string Value -> result (gmap string Value)))
    (download checksum : bool) (fs : FS) : result (IDTReeS * FS) :=
  _ ← lazy_import "laspy";
  fs ← _verify root split download checksum fs;
  '(images, geometries, labels) ← _load split task fs root;
  Ok ({| root := root; split := split; task := task; transforms := transforms;
         download := download; checksum := checksum;
         images := images; geometries := geometries; labels := labels |}, fs).

(** [len(self)] *)
Definition __len__ (self : IDTReeS) : Z := Z.of_nat (length (images self)).

(** *** Loading one scene *)

Definition _load_image (fs : FS) (path : string) : result (Raster Pixels) :=
  rasterio_read fs path image_size.

Definition _load_las (fs : FS) (path : string) : result Points :=
  _ ← lazy_import "laspy";
  laspy_read fs path.

(** [self.labels[self.labels['rsFile'] == base_path]] *)
Definition rows_of_scene (base_path : string) (table : list Row) : list Row :=
  filter (fun r => rsFile r = Some base_path) table.

(** [geometries[i]['geometry']['coordinates'][0][:4]], where [geometries]
    is [self.geometries]: subscripting [None] raises [TypeError]. *)
Definition corners (geometries : option (list (Z * Feature Coord)))
    (i : option Z) : result (list (Coord * Coord)) :=
  geometries ← of_option TypeError geometries;
  (* a NaN id is not a key of the dictionary *)
  i ← of_option KeyError i;
  feature ← dict_getitem i geometries;
  ring ← list_getitem (coordinates feature) 0;
  Ok (take 4 ring).

(** The body of the pixel-coordinate loop of [_load_boxes]. *)
Definition box_of_geom (index : Coord -> Coord -> Z * Z)
    (geom : list (Coord * Coord)) : result Box :=
  let coords := (fun '(x, y) => index x y) <$> geom in
  xmin ← py_min (snd <$> coords);
  xmax ← py_max (snd <$> coords);
  ymin ← py_min (fst <$> coords);
  ymax ← py_max (fst <$> coords);
  Ok {| xmin := xmin; ymin := ymin; xmax := xmax; ymax := ymax |}.

(** [[k for k, v in geometries.items() if v['properties']['plotID'] == base_path]] *)
Fixpoint keys_of_plot (base_path : string) (items : list (Z * Feature Coord))
  : result (list (option Z)) :=
  match items with
  | [] => Ok []
  | (k, v) :: items' =>
      plot ← of_option KeyError (prop_plotID v);
      ks ← keys_of_plot base_path items';
      Ok (if bool_decide (plot = base_path) then Some k :: ks else ks)
  end.

(** The ids of the objects of a scene: for the train split from the label
    table ([None] is a NaN of the [id] column), for the test split from the
    properties of the geometries. *)
Definition scene_ids (self : IDTReeS) (base_path : string)
  : result (list (option Z)) :=
  match split self with
  | train =>
      table ← of_option TypeError (labels self);
      Ok (row_id <$> rows_of_scene base_path table)
  | test =>
      geometries ← of_option AttributeError (geometries self);
      keys_of_plot base_path geometries
  end.

Definition _load_boxes (self : IDTReeS) (fs : FS) (path : string) : result BoxTensor :=
  let base_path := basename path in
  let geometries := geometries self in
  (* Find object ids and geometries *)
  ids ← scene_ids self base_path;
  geoms ← comprehension (corners geometries) ids;
  (* Convert to pixel coords *)
  index ← rasterio_index fs path;
  boxes ← comprehension (box_of_geom index) geoms;
  Ok (torch_tensor_boxes boxes).

Definition _load_target (self : IDTReeS) (path : string) : result Tensor1 :=
  (* Find indices for objects in the image *)
  let base_path := basename path in
  table ← of_option TypeError (labels self);
  (* Load object labels *)
  let classes := taxonID <$> rows_of_scene base_path table in
  comprehension (fun c => of_option KeyError (class2idx !! c)) classes.

(** [__getitem__] up to, and without, the call of [self.transforms]. *)
Definition getitem_sample (self : IDTReeS) (fs : FS) (index : Z)
  : result (gmap string Value) :=
  path ← list_getitem (images self) index;
  image ← _load_image fs path;
  let image := {| shape := shape image; pixels := to_uint8 (pixels image) |} in
  hsi ← _load_image fs (replace path "RGB" "HSI");
  chm ← _load_image fs (replace path "RGB" "CHM");
  las ← _load_las fs (replace (replace path "RGB" "LAS") ".tif" ".las");
  let sample : gmap string Value :=
    <["las" := VPoints las]>
      (<["chm" := VRaster chm]>
         (<["hsi" := VRaster hsi]> (<["image" := VRaster image]> ∅))) in
  match split self with
  | test =>
      match task self with
      | task2 =>
          boxes ← _load_boxes self fs path;
          let sample := <["boxes" := VBoxes boxes]> sample in
          let '(_, h, w) := shape image in
          '(boxes, _) ← _filter_boxes (h, w) 1 boxes None;
          Ok (<["boxes" := VBoxes boxes]> sample)
      | task1 => Ok sample
      end
  | train =>
      boxes ← _load_boxes self fs path;
      let sample := <["boxes" := VBoxes boxes]> sample in
      label ← _load_target self path;
      let sample := <["label" := VLabel label]> sample in
      let '(_, h, w) := shape image in
      '(boxes, label) ← _filter_boxes (h, w) 1 boxes (Some label);
      let sample := <["boxes" := VBoxes boxes]> sample in
      Ok (<["label" := match label with
                       | Some label => VLabel label
                       | None => VNone
                       end]> sample)
  end.

Definition __getitem__ (self : IDTReeS) (fs : FS) (index : Z)
  : result (gmap string Value) :=
  sample ← getitem_sample self fs index;
  match transforms self with
  | Some f => f sample
  | None => Ok sample
  end.

(** *** Annotation rows and their boxes

    The box that [_load_boxes] derives for one annotation row, and whether
    it passes the filter that [__getitem__] applies (minimum side 1). *)

Definition derived_box (geometries : option (list (Z * Feature Coord)))
    (index : Coord -> Coord -> Z * Z) (r : Row) : result Box :=
  geom ← corners geometries (row_id r);
  box_of_geom index geom.

Definition survives (geometries : option (list (Z * Feature Coord)))
    (index : Coord -> Coord -> Z * Z) (size : Z * Z) (r : Row) : bool :=
  match derived_box geometries index r with
  | Ok b => keep_box 1 (clip_box size b)
  | Raise _ => false
  end.

(** A scene without annotations: no row of the label table names it
    (train), or no geometry does (test, task 2). *)
Definition no_annotations (self : IDTReeS) (base_path : string) : Prop :=
  match split self with
  | train => exists table, labels self = Some table
                           ∧ rows_of_scene base_path table = []
  | test => task self = task2
            ∧ exists geoms,
                geometries self = Some geoms
                ∧ Forall (fun kv => exists p, prop_plotID kv.2 = Some p
                                              ∧ p ≠ base_path) geoms
  end.

(** The keys every sample has. *)
Definition base_keys : gset string := {["image"; "hsi"; "chm"; "las"]}.

(** The keys that depend on the split and the task. *)
Definition target_keys (split : Split) (task : Task) : gset string :=
  match split, task with
  | train, _ => {["boxes"; "label"]}
  | test, task2 => {["boxes"]}
  | test, task1 => ∅
  end.

End Dataset.

(** ** Coordinate ranges

    A box lies in the image with closed bounds when its x coordinates are
    in [0, W] and its y coordinates in [0, H]; with half-open bounds when
    they are in [0, W) and [0, H). *)

Definition in_image_closed (size : Z * Z) (b : Box) : Prop :=
  let '(height, width) := size in
  0 <= xmin b <= width ∧ 0 <= xmax b <= width
  ∧ 0 <= ymin b <= height ∧ 0 <= ymax b <= height.

Definition in_image_half_open (size : Z * Z) (b : Box) : Prop :=
  let '(height, width) := size in
  0 <= xmin b < width ∧ 0 <= xmax b < width
  ∧ 0 <= ymin b < height ∧ 0 <= ymax b < height.

(** ** Selection by a boolean mask

    [select mask l] is [l[mask]]: the entries of [l] at the true positions
    of [mask], raising as [gather] does when such a position is past the
    end of [l]. *)

Fixpoint select {A : Type} (mask : list bool) (l : list A) : result (list A) :=
  match mask with
  | [] => Ok []
  | true :: mask' =>
      match l with
      | [] => Raise IndexError
      | x :: l' => (cons x) <$> select mask' l'
      end
  | false :: mask' => select mask' (tail l)
  end.

(** ** A small concrete environment

    A disk is the list of the paths that exist on it.  Extracting an
    archive creates the three split directories next to it; downloading
    creates the archive.  Every raster has three bands, and the
    geographic-to-pixel transform is the identity. *)

Definition toy_extract (filepath : string) (fs : list string) : result (list string) :=
  if bool_decide (filepath ∈ fs)
  then Ok (((fun d => replace filepath (basename filepath) d)
              <$> ["train"; "task1"; "task2"]) ++ fs)
  else Raise (ExternalError "FileNotFoundError").

Definition toy_read {A : Type} (a : A) (fs : list string) (path : string) : result A :=
  if bool_decide (path ∈ fs) then Ok a else Raise (ExternalError "FileNotFoundError").

Definition toy_world : World := {|
  Coord := Z;
  Pixels := unit;
  Points := unit;
  FS := list string;
  path_exists := fun fs p => bool_decide (p ∈ fs);
  glob := fun fs pattern =>
    filter (fun p => String.prefix (replace pattern "*.tif" "") p = true) fs;
  extract_archive := toy_extract;
  download_url := fun _ root filename _ fs => Ok (path_join root filename :: fs);
  lazy_import := fun _ => Ok ();
  read_csv_labels := fun fs path => toy_read [] fs path;
  read_csv_mapping := fun fs path => toy_read [] fs path;
  fiona_open := fun fs path => toy_read [] fs path;
  rasterio_read := fun fs path size =>
    toy_read {| shape := (3, fst size, snd size); pixels := () |} fs path;
  rasterio_index := fun fs path => toy_read (fun x y => (y, x)) fs path;
  to_uint8 := fun px => px;
  laspy_read := fun fs path => toy_read () fs path
|}.

(** One scene with its four files. *)
Definition toy_scene : string := "data/train/RemoteSensing/RGB/MLBS_1.tif".
Definition toy_disk : list string :=
  [ "data/train";
    "data/train/RemoteSensing/RGB/MLBS_1.tif";
    "data/train/RemoteSensing/HSI/MLBS_1.tif";
    "data/train/RemoteSensing/CHM/MLBS_1.tif";
    "data/train/RemoteSensing/LAS/MLBS_1.las" ].

Definition toy_square (id : Z) (x0 y0 x1 y1 : Z) : Z * Feature Z :=
  (id, mkFeature (Some id) (Some "MLBS_1.tif")
         [[(x0, y0); (x1, y0); (x1, y1); (x0, y1); (x0, y0)]]).

Definition toy_geometries : list (Z * Feature Z) :=
  [ toy_square 7 10 20 30 50; toy_square 8 190 190 260 240; toy_square 9 40 40 40 90 ].

Definition toy_row (ind taxon : string) (id : Z) (file : string) : Row :=
  {| indvdID := ind; taxonID := taxon; rest := [];
     row_id := Some id; rsFile := Some file |}.

Definition toy_table : list Row :=
  [ toy_row "T1" "ACRU" 7 "MLBS_1.tif";
    toy_row "T2" "TSCA" 8 "MLBS_1.tif";
    toy_row "T3" "PINUS" 9 "MLBS_1.tif";
    toy_row "T4" "QUAL" 10 "OSBS_4.tif" ].

Definition toy_dataset (split : Split) (task : Task)
    (geometries : option (list (Z * Feature (@Coord toy_world))))
    (labels : option (list Row))
  : @IDTReeS toy_world :=
  {| root := "data"; split := split; task := task; transforms := None;
     download := false; checksum := false;
     images := [toy_scene]; geometries := geometries; labels := labels |}.

Definition toy_train : @IDTReeS toy_world :=
  toy_dataset train task1 (Some toy_geometries) (Some toy_table).

(** The same set with a label table that does not name the scene. *)
Definition toy_unlabelled : @IDTReeS toy_world :=
  toy_dataset train task1 (Some toy_geometries)
              (Some [toy_row "T4" "QUAL" 10 "OSBS_4.tif"]).

(** The same set with a species code outside the class table. *)
Definition toy_unknown_species : @IDTReeS toy_world :=
  toy_dataset train task1 (Some toy_geometries)
              (Some [toy_row "T1" "ABCD" 7 "MLBS_1.tif"]).

Definition toy_raster : Raster (@Pixels toy_world) := mkRaster (3, 200, 200) ().

(** The sample of the scene of [toy_train]: the third box has no width and
    is dropped, the second is cut at the image bound. *)
Definition toy_sample : gmap string (@Value toy_world) :=
  <["label" := VLabel [1; 32]]>
    (<["boxes" := VBoxes (TensorN4 [mkBox 10 20 30 50; mkBox 190 190 200 200])]>
       (<["label" := VLabel [1; 32; 18]]>
          (<["boxes" := VBoxes (TensorN4 [mkBox 10 20 30 50;
                                          mkBox 190 190 260 240;
                                          mkBox 40 40 40 90])]>
             (<["las" := VPoints (() : @Points toy_world)]>
                (<["chm" := VRaster toy_raster]>
                   (<["hsi" := VRaster toy_raster]>
                      (<["image" := VRaster toy_raster]> ∅))))))).

(** ** Boxes and the image

    A box has no area inside the image when it is flat or inverted, or
    lies past one of the four edges. *)

Definition empty_in_image (size : Z * Z) (b : Box) : Prop :=
  let '(height, width) := size in
  xmax b <= xmin b ∨ ymax b <= ymin b
  ∨ width <= xmin b ∨ xmax b <= 0 ∨ height <= ymin b ∨ ymax b <= 0.

(** ** Names of labels

    [[self.idx2class[int(i)] for i in sample['label']]], the names that
    [plot] writes next to the boxes. *)

Definition class_names (label : Tensor1) : result (list string) :=
  comprehension (fun i => of_option KeyError (idx2class !! i)) label.

(** ** Objects and their boxes

    The box that [_load_boxes] derives for the object with a given id, and
    whether it passes the filter that [__getitem__] applies. *)

Section Objects.
Context `{W : World}.

Definition box_of_id (geometries : option (list (Z * Feature Coord)))
    (index : Coord -> Coord -> Z * Z) (i : option Z) : result Box :=
  geom ← corners geometries i;
  box_of_geom index geom.

Definition id_survives (geometries : option (list (Z * Feature Coord)))
    (index : Coord -> Coord -> Z * Z) (size : Z * Z) (i : option Z) : bool :=
  match box_of_id geometries index i with
  | Ok b => keep_box 1 (clip_box size b)
  | Raise _ => false
  end.

End Objects.

(** ** Rows as [drop_duplicates] sees them *)

Definition columns (r : Row) : string * list string * option Z * option string :=
  (taxonID r, rest r, row_id r, rsFile r).

(** ** The environment with another download function *)

Definition with_download_url (W : World)
    (dl : string -> string -> string -> option string -> @FS W -> result (@FS W))
  : World :=
  {| Coord := @Coord W;
     Pixels := @Pixels W;
     Points := @Points W;
     FS := @FS W;
     path_exists := @path_exists W;
     glob := @glob W;
     extract_archive := @extract_archive W;
     download_url := dl;
     lazy_import := @lazy_import W;
     read_csv_labels := @read_csv_labels W;
     read_csv_mapping := @read_csv_mapping W;
     fiona_open := @fiona_open W;
     rasterio_read := @rasterio_read W;
     rasterio_index := @rasterio_index W;
     to_uint8 := @to_uint8 W;
     laspy_read := @laspy_read W |}.

(** ** A concrete environment with tables and shape files

    As [toy_world], with given contents for the shape files and the two
    tables, and a [glob] that lists the files of the pattern's directory. *)

Definition toy_world_with (features : string -> list (Feature Z))
    (df_labels : list LabelRow) (df_mapping : list MappingRow) : World := {|
  Coord := Z;
  Pixels := unit;
  Points := unit;
  FS := list string;
  path_exists := fun fs p => bool_decide (p ∈ fs);
  glob := fun fs pattern =>
    filter (fun p => String.prefix
                       (replace (replace pattern "*.tif" "") "*.shp" "") p = true) fs;
  extract_archive := toy_extract;
  download_url := fun _ root filename _ fs => Ok (path_join root filename :: fs);
  lazy_import := fun _ => Ok ();
  read_csv_labels := fun fs path => toy_read df_labels fs path;
  read_csv_mapping := fun fs path => toy_read df_mapping fs path;
  fiona_open := fun fs path => toy_read (features path) fs path;
  rasterio_read := fun fs path size =>
    toy_read {| shape := (3, fst size, snd size); pixels := () |} fs path;
  rasterio_index := fun fs path => toy_read (fun x y => (y, x)) fs path;
  to_uint8 := fun px => px;
  laspy_read := fun fs path => toy_read () fs path
|}.

(** Two shape files; the second repeats the id 7 of the first. *)
Definition toy_shapes (path : string) : list (Feature Z) :=
  if bool_decide (path = "data/train/ITC/a.shp")
  then [(toy_square 7 10 20 30 50).2; (toy_square 8 190 190 260 240).2]
  else [(toy_square 7 0 0 5 5).2].

(** A shape file with a feature that has no id. *)
Definition toy_shapes_without_id (path : string) : list (Feature Z) :=
  [(toy_square 7 10 20 30 50).2; mkFeature None (Some "MLBS_1.tif") []].

Definition toy_labels_csv : list LabelRow :=
  [ mkLabelRow "T1" "ACRU" ["MLBS"]; mkLabelRow "T2" "TSCA" ["MLBS"];
    mkLabelRow "T1" "ACRU" ["MLBS"]; mkLabelRow "T5" "PINUS" ["OSBS"] ].

Definition toy_mapping_csv : list MappingRow :=
  [ mkMappingRow 7 "T1" "MLBS_1.tif"; mkMappingRow 8 "T2" "MLBS_1.tif" ].

Definition toy_field_world : World :=
  toy_world_with toy_shapes toy_labels_csv toy_mapping_csv.

Definition toy_field_disk : list string :=
  [ "data/train";
    "data/train/Field/itc_rsFile.csv";
    "data/train/Field/train_data.csv";
    "data/train/ITC/a.shp";
    "data/train/ITC/b.shp";
    "data/train/RemoteSensing/RGB/MLBS_1.tif";
    "data/train/RemoteSensing/HSI/MLBS_1.tif";
    "data/train/RemoteSensing/CHM/MLBS_1.tif";
    "data/train/RemoteSensing/LAS/MLBS_1.las" ].

(** The test split, task 2, over the geometries of [toy_geometries]. *)
Definition toy_test2 : @IDTReeS toy_world :=
  toy_dataset test task2 (Some toy_geometries) None.

(** The same with a geometry that has no [plotID]. *)
Definition toy_test2_without_plot : @IDTReeS toy_world :=
  toy_dataset test task2
    (Some (toy_geometries ++ [(3, mkFeature (Some 3) None [[(0, 0)]])])) None.

(** The train set with a row whose id has no geometry. *)
Definition toy_missing_geometry : @IDTReeS toy_world :=
  toy_dataset train task1 (Some toy_geometries)
              (Some [toy_row "T1" "ACRU" 7 "MLBS_1.tif";
                     toy_row "T9" "QUAL" 99 "MLBS_1.tif"]).

(** The sample of the scene of [toy_test2]. *)
Definition toy_test2_sample : gmap string (@Value toy_world) :=
  <["boxes" := VBoxes (TensorN4 [mkBox 10 20 30 50; mkBox 190 190 200 200])]>
    (<["boxes" := VBoxes (TensorN4 [mkBox 10 20 30 50;
                                    mkBox 190 190 260 240;
                                    mkBox 40 40 40 90])]>
       (<["las" := VPoints (() : @Points toy_world)]>
          (<["chm" := VRaster toy_raster]>
             (<["hsi" := VRaster toy_raster]>
                (<["image" := VRaster toy_raster]> ∅))))).

(** The object that [__init__] builds over [toy_field_disk]. *)
Definition toy_field_object : @IDTReeS toy_field_world :=
  @mkIDTReeS toy_field_world "data" train task1 None false false
    ["data/train/RemoteSensing/RGB/MLBS_1.tif"]
    (Some [toy_square 7 0 0 5 5; toy_square 8 190 190 260 240])
    (Some [ {| indvdID := "T1"; taxonID := "ACRU"; rest := ["MLBS"];
               row_id := Some 7; rsFile := Some "MLBS_1.tif" |};
            {| indvdID := "T2"; taxonID := "TSCA"; rest := ["MLBS"];
               row_id := Some 8; rsFile := Some "MLBS_1.tif" |};
            {| indvdID := "T5"; taxonID := "PINUS"; rest := ["OSBS"];
               row_id := None; rsFile := None |} ]).

(** ** Clipping, coordinate by coordinate

    What clamping into [0, hi] does to one coordinate [x], giving [x']: in
    the range it is unchanged, below 0 it becomes 0, above [hi] it becomes
    [hi].  [clipped_to size b c] says so of the four coordinates of a box
    [b] and its clipped box [c], with the width for x and the height for
    y. *)

Definition clipped_coord (hi x x' : Z) : Prop :=
  (x < 0 -> x' = 0) ∧ (0 <= x <= hi -> x' = x) ∧ (hi < x -> x' = hi).

Definition clipped_to (size : Z * Z) (b c : Box) : Prop :=
  let '(height, width) := size in
  clipped_coord width (xmin b) (xmin c)
  ∧ clipped_coord width (xmax b) (xmax c)
  ∧ clipped_coord height (ymin b) (ymin c)
  ∧ clipped_coord height (ymax b) (ymax c).

(** ** The annotations of a scene, as a set

    The annotation records the two tables give for a scene, without
    reference to how the code joins them: one record, (species, remaining
    label columns, id), for every label row and mapping row of the same
    individual whose mapping row names the scene file; equal records count
    once. *)

Definition scene_annotations (df_labels : list LabelRow)
    (df_mapping : list MappingRow) (base_path : string)
  : gset (string * list string * Z) :=
  list_to_set
    (l ← df_labels;
     m ← filter (fun m => m_indvdID m = l_indvdID l ∧ m_rsFile m = base_path)
                df_mapping;
     [(l_taxonID l, l_rest l, m_id m)]).

(** The record that a row of the table stands for, from its columns. *)
Definition record_of (c : string * list string * option Z * option string)
  : string * list string * Z :=
  (c.1.1.1, c.1.1.2, default 0 c.1.2).

Definition toy_field_raster : Raster (@Pixels toy_field_world) :=
  mkRaster (3, 200, 200) ().

(** The sample of the scene of [toy_field_object]. *)
Definition toy_field_sample : gmap string (@Value toy_field_world) :=
  <["label" := VLabel [1; 32]]>
    (<["boxes" := VBoxes (TensorN4 [mkBox 0 0 5 5; mkBox 190 190 200 200])]>
       (<["label" := VLabel [1; 32]]>
          (<["boxes" := VBoxes (TensorN4 [mkBox 0 0 5 5; mkBox 190 190 260 240])]>
             (<["las" := VPoints (() : @Points toy_field_world)]>
                (<["chm" := VRaster toy_field_raster]>
                   (<["hsi" := VRaster toy_field_raster]>
                      (<["image" := VRaster toy_field_raster]> ∅))))))).

(** * Properties *)

(** ** The box filter *)

Section BoxFilter.

Lemma fmap_result_bind {A B : Type} (f : A -> B) (m : result A) :
  (a ← m; Ok (f a)) = f <$> m.
Proof. by destruct m. Qed.

Lemma drop_S_tail {A : Type} (l : list A) (n : nat) :
  drop (S n) l = tail (drop n l).
Proof.
  revert l. induction n as [|n IH]; intros [|x l]; simpl; try done.
Qed.

Lemma lookup_head_drop {A : Type} (l : list A) (n : nat) :
  l !! n = head (drop n l).
Proof. revert l. induction n as [|n IH]; intros [|x l]; simpl; try done. Qed.

(** The index tensor of [torch.where] read back through [gather] is a
    selection by mask. *)
Lemma gather_where_true {A : Type} (mask : list bool) (l : list A) (n : nat) :
  gather l (where_true (Z.of_nat n) mask) = select mask (drop n l).
Proof.
  revert n. induction mask as [|k mask IH]; intros n; [done|].
  assert (Hn : Z.of_nat n + 1 = Z.of_nat (S n)) by lia.
  specialize (IH (S n)). rewrite drop_S_tail in IH.
  destruct k; simpl; rewrite Hn; [|done].
  unfold gather in *. simpl. rewrite IH.
  rewrite decide_True by lia. rewrite Nat2Z.id, lookup_head_drop.
  destruct (drop n l) as [|x l']; simpl; [done|].
  by destruct (select mask l').
Qed.

Lemma gather_where_true_0 {A : Type} (mask : list bool) (l : list A) :
  gather l (where_true 0 mask) = select mask l.
Proof. apply (gather_where_true mask l 0). Qed.

Lemma select_rows (f : Box -> bool) (rows : list Box) :
  select (f <$> rows) rows = Ok (filter (fun b => f b = true) rows).
Proof.
  induction rows as [|b rows IH]; [done|].
  rewrite fmap_cons, filter_cons. destruct (f b) eqn:Hb; cbn [select tail].
  - rewrite IH. by rewrite decide_True.
  - rewrite IH. by rewrite decide_False by congruence.
Qed.

Lemma select_parallel {A : Type} (f : Box -> bool) (rows : list Box) (l : list A) :
  length l = length rows ->
  select (f <$> rows) l
  = Ok ((filter (fun bl => f bl.1 = true) (zip rows l)).*2).
Proof.
  revert l. induction rows as [|b rows IH]; intros [|x l] Hlen;
    simpl in Hlen; try done.
  rewrite fmap_cons. cbn [zip zip_with]. rewrite filter_cons. cbn [fst].
  destruct (f b) eqn:Hb; cbn [select tail]; rewrite IH by lia.
  - by rewrite decide_True.
  - by rewrite decide_False by congruence.
Qed.

Lemma keep_box_spec (min_size : Z) (b : Box) :
  keep_box min_size b = true <->
  ¬ (box_width b < min_size ∨ box_height b < min_size).
Proof. unfold keep_box. rewrite andb_true_iff, !Z.leb_le. lia. Qed.

(** The filter on a tensor of shape [N, 4], in closed form. *)
Lemma filter_boxes_N4 (image_size : Z * Z) (min_size : Z) (rows : list Box)
    (labels : option Tensor1) :
  let clipped := clip_box image_size <$> rows in
  let kept := filter (fun b => keep_box min_size b = true) clipped in
  _filter_boxes image_size min_size (TensorN4 rows) labels
  = match labels with
    | None => Ok (TensorN4 kept, None)
    | Some l => l' ← select (keep_box min_size <$> clipped) l;
                Ok (TensorN4 kept, Some l')
    end.
Proof.
  intros clipped kept. unfold _filter_boxes. simpl.
  fold clipped. rewrite gather_where_true_0, select_rows. simpl.
  destruct labels as [l|]; [|done]. by rewrite gather_where_true_0.
Qed.

(** C1: on boxes of shape [N, 4] the filter drops exactly the boxes whose
    clipped width or clipped height is strictly below [min_size], and the
    labels, when present and parallel to the boxes, go through the same
    keep-mask. *)
Theorem filter_boxes_removes_exactly_small
    (image_size : Z * Z) (min_size : Z) (rows : list Box) (labels : Tensor1) :
  length labels = length rows ->
  let clipped := clip_box image_size <$> rows in
  let small := fun b => box_width b < min_size ∨ box_height b < min_size in
  _filter_boxes image_size min_size (TensorN4 rows) None
  = Ok (TensorN4 (filter (fun b => ¬ small b) clipped), None)
  ∧ _filter_boxes image_size min_size (TensorN4 rows) (Some labels)
    = Ok (TensorN4 (filter (fun b => ¬ small b) clipped),
          Some ((filter (fun bl => ¬ small bl.1) (zip clipped labels)).*2)).
Proof.
  intros Hlen clipped small.
  assert (Hb : filter (fun b => keep_box min_size b = true) clipped
               = filter (fun b => ¬ small b) clipped).
  { apply list_filter_iff. intros b. apply keep_box_spec. }
  rewrite !filter_boxes_N4. fold clipped. rewrite Hb. split; [done|].
  rewrite select_parallel by (unfold clipped; rewrite length_fmap; done).
  simpl. do 3 f_equal. f_equal.
  apply list_filter_iff. intros [b l]. apply keep_box_spec.
Qed.

Lemma Forall_filter_of {A : Type} (P Q : A -> Prop) `{!forall x, Decision (P x)}
    (l : list A) :
  Forall Q l -> Forall Q (filter P l).
Proof.
  rewrite !Forall_forall. intros HQ x Hx.
  apply list_elem_of_filter in Hx as [_ Hx]. by apply HQ.
Qed.

Lemma clamp_idempotent (lo hi x : Z) : clamp lo hi (clamp lo hi x) = clamp lo hi x.
Proof. unfold clamp. lia. Qed.

Lemma clamp_range (hi x : Z) : 0 <= hi -> 0 <= clamp 0 hi x <= hi.
Proof. unfold clamp. lia. Qed.

Lemma clip_box_idempotent (size : Z * Z) (b : Box) :
  clip_box size (clip_box size b) = clip_box size b.
Proof. destruct size as [h w]. unfold clip_box. simpl. by rewrite !clamp_idempotent. Qed.

Lemma clip_box_in_image (h w : Z) (b : Box) :
  0 <= h -> 0 <= w -> in_image_closed (h, w) (clip_box (h, w) b).
Proof.
  intros Hh Hw. unfold in_image_closed, clip_box. simpl.
  pose proof (clamp_range w (xmin b) Hw). pose proof (clamp_range w (xmax b) Hw).
  pose proof (clamp_range h (ymin b) Hh). pose proof (clamp_range h (ymax b) Hh).
  lia.
Qed.

Lemma clamp_clipped_coord (hi x : Z) : 0 <= hi -> clipped_coord hi x (clamp 0 hi x).
Proof. unfold clipped_coord, clamp. lia. Qed.

Lemma clip_box_clipped_to (h w : Z) (b : Box) :
  0 <= h -> 0 <= w -> clipped_to (h, w) b (clip_box (h, w) b).
Proof.
  intros Hh Hw. unfold clipped_to, clip_box. simpl.
  split_and!; by apply clamp_clipped_coord.
Qed.

(** C3, as amended: with a height and a width that are not negative, the
    boxes that [remove_small_boxes] sees are the input boxes clamped
    coordinate by coordinate into the closed ranges [0, W] for x and
    [0, H] for y: a coordinate in its range is unchanged, a negative one
    becomes 0, and one beyond the bound becomes exactly W or H.  So every
    box the mask is computed from, and every box returned, lies in the
    closed ranges and is the clamped form of an input box. *)
Theorem filter_boxes_clips_into_closed_ranges
    (h w min_size : Z) (rows : list Box) (labels : option Tensor1) :
  0 <= h -> 0 <= w ->
  (exists clipped,
      clip_boxes_to_image (TensorN4 rows) (h, w) = TensorN4 clipped
      ∧ Forall2 (clipped_to (h, w)) rows clipped
      ∧ Forall (in_image_closed (h, w)) clipped
      ∧ _filter_boxes (h, w) min_size (TensorN4 rows) labels
        = (indices ← remove_small_boxes (TensorN4 clipped) min_size;
           boxes ← index_boxes (TensorN4 clipped) indices;
           match labels with
           | Some labels => labels ← gather labels indices; Ok (boxes, Some labels)
           | None => Ok (boxes, None)
           end))
  ∧ (forall out labels',
        _filter_boxes (h, w) min_size (TensorN4 rows) labels
        = Ok (TensorN4 out, labels') ->
        Forall (fun c => in_image_closed (h, w) c
                         ∧ exists b, b ∈ rows ∧ clipped_to (h, w) b c) out).
Proof.
  intros Hh Hw.
  assert (Hc : Forall (fun c => in_image_closed (h, w) c
                                ∧ exists b, b ∈ rows ∧ clipped_to (h, w) b c)
                      (clip_box (h, w) <$> rows)).
  { apply Forall_fmap, Forall_forall. intros b Hb. simpl. split.
    - by apply clip_box_in_image.
    - exists b. split; [done|]. by apply clip_box_clipped_to. }
  split.
  - exists (clip_box (h, w) <$> rows). split_and!; [done| | |done].
    + apply Forall2_fmap_r, Forall_Forall2_diag, Forall_forall.
      intros b _. by apply clip_box_clipped_to.
    + eapply Forall_impl; [apply Hc|]. by intros c [? _].
  - intros out labels' Hf. rewrite filter_boxes_N4 in Hf.
    assert (out = filter (fun b => keep_box min_size b = true)
                         (clip_box (h, w) <$> rows)) as ->.
    { destruct labels as [l|]; simpl in Hf.
      - destruct (select _ l); simpl in Hf; congruence.
      - congruence. }
    by apply Forall_filter_of.
Qed.

Lemma select_length {A : Type} (f : Box -> bool) (rows : list Box) (l l' : list A) :
  select (f <$> rows) l = Ok l' ->
  length l' = length (filter (fun b => f b = true) rows).
Proof.
  revert l l'. induction rows as [|b rows IH]; intros l l' Hs.
  - simpl in Hs. by inversion Hs.
  - rewrite fmap_cons in Hs. rewrite filter_cons.
    destruct (f b) eqn:Hb; cbn [select] in Hs.
    + rewrite decide_True by done. destruct l as [|x l]; [done|].
      destruct (select (f <$> rows) l) as [l0|] eqn:Hl0; simpl in Hs; [|done].
      inversion Hs; subst. simpl. f_equal. by eapply IH.
    + rewrite decide_False by congruence. by eapply IH.
Qed.

Lemma select_all_true {A : Type} (f : Box -> bool) (rows : list Box) (l : list A) :
  Forall (fun b => f b = true) rows -> length l = length rows ->
  select (f <$> rows) l = Ok l.
Proof.
  intros Hall. revert l. induction Hall as [|b rows Hb _ IH]; intros [|x l] Hlen;
    simpl in Hlen; try done.
  rewrite fmap_cons, Hb. cbn [select]. rewrite IH by lia. done.
Qed.

Lemma filter_all {A : Type} (P : A -> Prop) `{!forall x, Decision (P x)} (l : list A) :
  Forall P l -> filter P l = l.
Proof.
  induction 1 as [|x l Hx _ IH]; [done|].
  rewrite filter_cons, decide_True by done. by rewrite IH.
Qed.

(** C4: the filter is idempotent: whenever it returns, applying it again
    to the boxes and labels it returned, with the same image size and
    minimum side, returns them unchanged. *)
Theorem filter_boxes_idempotent
    (image_size : Z * Z) (min_size : Z) (boxes : BoxTensor)
    (labels : option Tensor1) (out : BoxTensor * option Tensor1) :
  _filter_boxes image_size min_size boxes labels = Ok out ->
  _filter_boxes image_size min_size out.1 out.2 = Ok out.
Proof.
  intros Hf. destruct boxes as [|rows]; [done|].
  rewrite filter_boxes_N4 in Hf.
  set (clipped := clip_box image_size <$> rows) in *.
  set (kept := filter (fun b => keep_box min_size b = true) clipped) in *.
  assert (Hclip : clip_box image_size <$> kept = kept).
  { rewrite <- (list_fmap_id kept) at 2. apply Forall_fmap_ext.
    apply Forall_filter_of. unfold clipped. apply Forall_fmap, Forall_forall.
    intros b _. simpl. by rewrite clip_box_idempotent. }
  assert (Hall : Forall (fun b => keep_box min_size b = true) kept).
  { apply Forall_forall. intros b Hb. by apply list_elem_of_filter in Hb as [? _]. }
  destruct labels as [l|]; simpl in Hf.
  - destruct (select (keep_box min_size <$> clipped) l) as [l'|] eqn:Hl;
      simpl in Hf; [|done].
    inversion Hf; subst out. simpl.
    rewrite filter_boxes_N4, Hclip, (filter_all _ kept Hall).
    rewrite select_all_true; [done|done|]. by eapply select_length.
  - inversion Hf; subst out. simpl.
    by rewrite filter_boxes_N4, Hclip, (filter_all _ kept Hall).
Qed.

(** The index tensor of [torch.where]: ascending, and holding exactly the
    positions of the true entries. *)
Lemma where_true_lower (n : Z) (mask : list bool) :
  Forall (fun i => n <= i) (where_true n mask).
Proof.
  revert n. induction mask as [|k mask IH]; intros n; [constructor|].
  assert (Hn : Forall (fun i => n <= i) (where_true (n + 1) mask)).
  { eapply Forall_impl; [apply IH|]. simpl. lia. }
  destruct k; simpl; [constructor; [lia|done]|done].
Qed.

Lemma where_true_sorted (n : Z) (mask : list bool) :
  StronglySorted Z.lt (where_true n mask).
Proof.
  revert n. induction mask as [|k mask IH]; intros n; [constructor|].
  destruct k; simpl; [|apply IH].
  constructor; [apply IH|].
  eapply Forall_impl; [apply (where_true_lower (n + 1))|]. simpl. lia.
Qed.

Lemma elem_of_where_true (n i : Z) (mask : list bool) :
  i ∈ where_true n mask <-> n <= i ∧ mask !! Z.to_nat (i - n) = Some true.
Proof.
  revert n. induction mask as [|k mask IH]; intros n.
  - simpl. rewrite elem_of_nil, lookup_nil. split; [done|]. by intros [_ ?].
  - assert (Hstep : forall b, n + 1 <= i ->
              (k :: mask) !! Z.to_nat (i - n) = Some b
              <-> mask !! Z.to_nat (i - (n + 1)) = Some b).
    { intros b Hi. replace (Z.to_nat (i - n)) with (S (Z.to_nat (i - (n + 1))))
        by lia. done. }
    destruct (decide (i = n)) as [->|Hne].
    + rewrite Z.sub_diag. simpl. destruct k; simpl.
      * rewrite elem_of_cons. split; [|by left]. intros _. split; [lia|done].
      * rewrite IH. split; [lia|]. by intros [_ ?].
    + destruct k; simpl; rewrite ?elem_of_cons, IH; split.
      * intros [?|[? ?]]; [done|]. split; [lia|]. apply Hstep; [lia|done].
      * intros [? ?]. right. split; [lia|]. apply Hstep; [lia|done].
      * intros [? ?]. split; [lia|]. apply Hstep; [lia|done].
      * intros [? ?]. split; [lia|]. apply Hstep; [lia|done].
Qed.

Lemma gather_Forall2 {A : Type} (l out : list A) (indices : Tensor1) :
  gather l indices = Ok out ->
  Forall2 (fun i x => 0 <= i ∧ l !! Z.to_nat i = Some x) indices out.
Proof.
  revert out. induction indices as [|i indices IH]; intros out Hg.
  - inversion Hg. constructor.
  - unfold gather in *. simpl in Hg.
    destruct (decide (0 <= i)) as [Hi|]; [|done].
    destruct (l !! Z.to_nat i) as [x|] eqn:Hx; [|done]. simpl in Hg.
    destruct (comprehension _ indices) as [ys|] eqn:Hys; [|done].
    simpl in Hg. inversion Hg; subst out.
    constructor; [done|]. by apply IH.
Qed.

(** C9: the filter keeps order and parallelism.  The boxes returned are
    the clipped input boxes at the positions of one ascending index list,
    which holds exactly the positions the keep-mask accepts; the labels
    returned are the input labels at the same positions; so both have the
    same length, which is at most the number of input boxes. *)
Theorem filter_boxes_preserves_order
    (image_size : Z * Z) (min_size : Z) (rows : list Box)
    (labels : option Tensor1) (boxes' : BoxTensor) (labels' : option Tensor1) :
  _filter_boxes image_size min_size (TensorN4 rows) labels = Ok (boxes', labels') ->
  let clipped := clip_box image_size <$> rows in
  exists (indices : list Z) (out : list Box),
    boxes' = TensorN4 out
    ∧ StronglySorted Z.lt indices
    ∧ (forall i, i ∈ indices <->
         exists b, 0 <= i ∧ clipped !! Z.to_nat i = Some b
                   ∧ keep_box min_size b = true)
    ∧ Forall2 (fun i b => clipped !! Z.to_nat i = Some b) indices out
    ∧ match labels with
      | None => labels' = None
      | Some l =>
          exists l', labels' = Some l'
            ∧ Forall2 (fun i x => l !! Z.to_nat i = Some x) indices l'
            ∧ length l' = length out
      end
    ∧ (length out <= length rows)%nat.
Proof.
  intros Hf clipped. unfold _filter_boxes in Hf. simpl in Hf. fold clipped in Hf.
  set (indices := where_true 0 (keep_box min_size <$> clipped)) in *.
  destruct (gather clipped indices) as [out|] eqn:Hout; simpl in Hf; [|done].
  pose proof (gather_Forall2 _ _ _ Hout) as Hb.
  assert (Hlen : length out = length (filter (fun b => keep_box min_size b = true) clipped)).
  { unfold indices in Hout. rewrite gather_where_true_0, select_rows in Hout.
    by inversion Hout. }
  exists indices, out. split_and!.
  - destruct labels as [l|]; simpl in Hf; [|congruence].
    destruct (gather l indices); simpl in Hf; congruence.
  - apply where_true_sorted.
  - intros i. unfold indices. rewrite elem_of_where_true, Z.sub_0_r.
    rewrite list_lookup_fmap. split.
    + intros [Hi Hk]. destruct (clipped !! Z.to_nat i) as [b|]; [|done].
      exists b. cbn in Hk. injection Hk as Hk. done.
    + intros (b & Hi & Hb' & Hk). rewrite Hb'. simpl. by rewrite Hk.
  - eapply Forall2_impl; [apply Hb|]. by intros i b [_ ?].
  - destruct labels as [l|]; simpl in Hf; [|by inversion Hf].
    destruct (gather l indices) as [l'|] eqn:Hl; simpl in Hf; [|done].
    exists l'. split_and!; [by inversion Hf| |].
    + eapply Forall2_impl; [apply (gather_Forall2 _ _ _ Hl)|]. by intros i x [_ ?].
    + apply gather_Forall2, Forall2_length in Hl.
      apply Forall2_length in Hb. lia.
  - rewrite Hlen. etrans; [apply length_filter|].
    unfold clipped. by rewrite length_fmap.
Qed.

End BoxFilter.

(** ** The species class table *)

Section ClassTable.

(** The entries of the two dictionaries, checked by evaluation. *)
Lemma class2idx_entries :
  Forall (fun p => idx2class !! p.2 = Some p.1 ∧ 0 <= p.2 < 33 ∧ p.1 ∈ class_codes)
         (map_to_list class2idx).
Proof. compute_done. Qed.

Lemma idx2class_entries :
  Forall (fun p => class2idx !! p.2 = Some p.1 ∧ 0 <= p.1 < 33)
         (map_to_list idx2class).
Proof. compute_done. Qed.

Lemma class_codes_indexed : Forall (fun c => is_Some (class2idx !! c)) class_codes.
Proof. compute_done. Qed.

Lemma class_indices_named : Forall (fun i => is_Some (idx2class !! i)) (seqZ 0 33).
Proof. compute_done. Qed.

Lemma class2idx_Some (c : string) (i : Z) :
  class2idx !! c = Some i ->
  idx2class !! i = Some c ∧ 0 <= i < 33 ∧ c ∈ class_codes.
Proof.
  intros Hc. apply elem_of_map_to_list in Hc.
  pose proof class2idx_entries as Hall. rewrite Forall_forall in Hall.
  apply (Hall _ Hc).
Qed.

Lemma idx2class_Some (i : Z) (c : string) :
  idx2class !! i = Some c -> class2idx !! c = Some i ∧ 0 <= i < 33.
Proof.
  intros Hi. apply elem_of_map_to_list in Hi.
  pose proof idx2class_entries as Hall. rewrite Forall_forall in Hall.
  apply (Hall _ Hi).
Qed.

(** C7: [class2idx] and [idx2class] are inverse bijections between the 33
    species codes and the integers of [0, 33), and [num_classes] is 33. *)
Theorem class_index_bijection :
  num_classes = 33
  ∧ length class_codes = 33%nat
  ∧ NoDup class_codes
  ∧ (forall c, c ∈ class_codes ->
       exists i, class2idx !! c = Some i ∧ 0 <= i < 33 ∧ idx2class !! i = Some c)
  ∧ (forall i, 0 <= i < 33 ->
       exists c, idx2class !! i = Some c ∧ c ∈ class_codes ∧ class2idx !! c = Some i)
  ∧ (forall c1 c2 i,
       class2idx !! c1 = Some i -> class2idx !! c2 = Some i -> c1 = c2)
  ∧ (forall c, is_Some (class2idx !! c) -> c ∈ class_codes)
  ∧ (forall i, is_Some (idx2class !! i) -> 0 <= i < 33).
Proof.
  split_and!.
  - reflexivity.
  - reflexivity.
  - compute_done.
  - intros c Hc.
    pose proof class_codes_indexed as Hall. rewrite Forall_forall in Hall.
    destruct (Hall c Hc) as [i Hi]. exists i.
    destruct (class2idx_Some c i Hi) as (? & ? & _). done.
  - intros i Hi.
    pose proof class_indices_named as Hall. rewrite Forall_forall in Hall.
    destruct (Hall i) as [c Hc]; [apply elem_of_seqZ; lia|]. exists c.
    destruct (idx2class_Some i c Hc) as [Hback _].
    destruct (class2idx_Some c i Hback) as (_ & _ & ?). done.
  - intros c1 c2 i H1 H2.
    apply class2idx_Some in H1 as [H1 _]. apply class2idx_Some in H2 as [H2 _].
    congruence.
  - intros c [i Hi]. by apply class2idx_Some in Hi as (_ & _ & ?).
  - intros i [c Hc]. by apply idx2class_Some in Hc as [_ ?].
Qed.

End ClassTable.

(** ** Verification and acquisition *)

Section Verify.
Context `{W : World}.

Lemma all_present_forallb (root : string) (split : Split) (fs : FS) :
  forallb (fun b => b)
          ((fun directory => path_exists fs (path_join root directory))
             <$> directories split) = true
  <-> all_present root split fs.
Proof.
  unfold all_present. rewrite forallb_forall. split.
  - intros H d Hd. apply H, list_elem_of_In, list_elem_of_fmap. by exists d.
  - intros H b Hb. apply list_elem_of_In, list_elem_of_fmap in Hb as (d & -> & Hd).
    by apply H.
Qed.

Lemma verify_present (root : string) (split : Split) (download checksum : bool)
    (fs : FS) :
  all_present root split fs -> _verify root split download checksum fs = Ok fs.
Proof.
  intros H. apply all_present_forallb in H. unfold _verify. by rewrite H.
Qed.

Lemma verify_absent (root : string) (split : Split) (download checksum : bool)
    (fs : FS) :
  ¬ all_present root split fs ->
  _verify root split download checksum fs
  = let archive := path_join root (filename (metadata split)) in
    if path_exists fs archive then extract_archive archive fs
    else if negb download then Raise DatasetNotFoundError
    else fs' ← download_url (url (metadata split)) root (filename (metadata split))
                 (if checksum then Some (md5 (metadata split)) else None) fs;
         extract_archive archive fs'.
Proof.
  intros H. rewrite <- all_present_forallb in H. apply not_true_is_false in H.
  unfold _verify. by rewrite H.
Qed.

Lemma empty_root_absent (root : string) (split : Split) (fs : FS) :
  (forall p, path_exists fs p = false) -> ¬ all_present root split fs.
Proof.
  intros Hempty Hall.
  assert (Hd : exists d, d ∈ directories split).
  { destruct split; eexists; apply list_elem_of_here. }
  destruct Hd as [d Hd]. specialize (Hall d Hd). by rewrite Hempty in Hall.
Qed.

(** C2: [_verify] decides in this order: all the directories of the split
    exist: it returns and leaves the disk as it is; else the archive
    exists: it extracts it; else downloading is off: it raises
    [DatasetNotFoundError]; else it downloads from the URL of the split,
    passing the MD5 only when [checksum] is set, and extracts.  So with
    downloading off and nothing on the disk it raises, and so does
    [__init__]; and on a disk that an extraction has left with the
    directories it returns. *)
Theorem verify_decision_order
    (root : string) (split : Split) (download checksum : bool) (fs : FS) :
  let archive := path_join root (filename (metadata split)) in
  (all_present root split fs ->
     _verify root split download checksum fs = Ok fs)
  ∧ (¬ all_present root split fs -> path_exists fs archive = true ->
     _verify root split download checksum fs = extract_archive archive fs)
  ∧ (¬ all_present root split fs -> path_exists fs archive = false ->
     download = false ->
     _verify root split download checksum fs = Raise DatasetNotFoundError)
  ∧ (¬ all_present root split fs -> path_exists fs archive = false ->
     download = true ->
     _verify root split download checksum fs
     = (fs' ← download_url (url (metadata split)) root (filename (metadata split))
               (if checksum then Some (md5 (metadata split)) else None) fs;
        extract_archive archive fs'))
  ∧ ((forall p, path_exists fs p = false) -> download = false ->
     _verify root split download checksum fs = Raise DatasetNotFoundError)
  ∧ (forall fs0 download0 checksum0,
       _verify root split download0 checksum0 fs0 = Ok fs ->
       all_present root split fs ->
       _verify root split download checksum fs = Ok fs)
  ∧ (forall task transforms,
       lazy_import "laspy" = Ok () ->
       (forall p, path_exists fs p = false) -> download = false ->
       __init__ root split task transforms download checksum fs
       = Raise DatasetNotFoundError).
Proof.
  intros archive. split_and!.
  - apply verify_present.
  - intros Habs Hzip. rewrite verify_absent by done. simpl.
    fold archive. by rewrite Hzip.
  - intros Habs Hzip ->. rewrite verify_absent by done. simpl.
    fold archive. by rewrite Hzip.
  - intros Habs Hzip ->. rewrite verify_absent by done. simpl.
    fold archive. by rewrite Hzip.
  - intros Hempty ->. rewrite verify_absent by (by apply empty_root_absent).
    simpl. by rewrite Hempty.
  - intros fs0 download0 checksum0 _ Hall. by apply verify_present.
  - intros task transforms Hlazy Hempty ->. unfold __init__.
    rewrite Hlazy. cbn [mbind result_bind].
    rewrite verify_absent by (by apply empty_root_absent).
    cbn zeta. by rewrite Hempty.
Qed.

End Verify.

(** ** Loading one scene *)

Section Loader.
Context `{W : World}.

(** The class dictionaries are read through their lemmas only. *)
#[local] Opaque class2idx idx2class.

(** Inversion of a successful bind: case on the first computation. *)
Ltac bind_ok H :=
  match type of H with
  | mbind _ ?m = Ok _ =>
      let E := fresh "E" in
      destruct m eqn:E; [cbn [mbind result_bind] in H|discriminate H]
  end.

Lemma comprehension_Forall2 {A B : Type} (f : A -> result B) (xs : list A)
    (ys : list B) :
  comprehension f xs = Ok ys -> Forall2 (fun x y => f x = Ok y) xs ys.
Proof.
  revert ys. induction xs as [|x xs IH]; intros ys H; simpl in H.
  - inversion H. constructor.
  - bind_ok H. bind_ok H. inversion H; subst. constructor; [done|]. by apply IH.
Qed.

Lemma comprehension_raise {A B : Type} (f : A -> result B) (e : exn) (xs : list A) :
  (forall x e', f x = Raise e' -> e' = e) ->
  (exists x, x ∈ xs ∧ f x = Raise e) ->
  comprehension f xs = Raise e.
Proof.
  intros Honly [x [Hx Hfx]].
  induction xs as [|y xs IH]; [by apply elem_of_nil in Hx|].
  simpl. destruct (f y) as [b|e'] eqn:Hy; simpl.
  - apply elem_of_cons in Hx as [->|Hx]; [congruence|]. by rewrite IH.
  - f_equal. by eapply Honly.
Qed.

Lemma Forall2_filter_length {A B : Type} (R : A -> B -> Prop)
    (P : A -> Prop) (Q : B -> Prop)
    `{!forall x, Decision (P x)} `{!forall y, Decision (Q y)}
    (l1 : list A) (l2 : list B) :
  Forall2 R l1 l2 -> (forall x y, R x y -> (P x <-> Q y)) ->
  length (filter P l1) = length (filter Q l2).
Proof.
  intros HR HPQ. induction HR as [|x y l1 l2 Hxy _ IH]; [done|].
  rewrite !filter_cons. specialize (HPQ x y Hxy).
  destruct (decide (P x)), (decide (Q y)); simpl; try tauto; by rewrite IH.
Qed.

Lemma filter_boxes_Tensor0 (size : Z * Z) (min_size : Z) (labels : option Tensor1) :
  _filter_boxes size min_size Tensor0 labels = Raise IndexError.
Proof. done. Qed.

(** What a successful train-split access went through. *)
Lemma getitem_sample_train (self : IDTReeS) (fs : FS) (index : Z)
    (sample : gmap string Value) :
  split self = train ->
  getitem_sample self fs index = Ok sample ->
  exists path image boxes label out ls sample0,
    list_getitem (images self) index = Ok path
    ∧ _load_image fs path = Ok image
    ∧ _load_boxes self fs path = Ok (TensorN4 boxes)
    ∧ _load_target self path = Ok label
    ∧ _filter_boxes ((shape image).1.2, (shape image).2) 1 (TensorN4 boxes) (Some label)
      = Ok (TensorN4 out, Some ls)
    ∧ sample = <["label" := VLabel ls]> (<["boxes" := VBoxes (TensorN4 out)]> sample0)
    ∧ dom sample0 = base_keys ∪ {["boxes"; "label"]}.
Proof.
  intros Hsplit H. unfold getitem_sample in H. rewrite Hsplit in H.
  do 7 bind_ok H. cbn [shape] in H.
  destruct (shape a0) as [[c h] w] eqn:Hshape.
  destruct a4 as [|boxes]; [done|].
  pose proof (filter_boxes_N4 (h, w) 1 boxes (Some a5)) as Hclosed.
  cbn zeta in Hclosed.
  destruct (_filter_boxes (h, w) 1 (TensorN4 boxes) (Some a5)) as [[b' l']|] eqn:Hf;
    [cbn [mbind result_bind] in H|discriminate H].
  destruct (select _ a5) as [ls|]; cbn [mbind result_bind] in Hclosed; [|done].
  inversion Hclosed; subst b' l'. inversion H; subst sample.
  eexists a, a0, boxes, a5, _, ls, _. rewrite Hshape. cbn [fst snd].
  split_and!; done.
Qed.

Lemma load_boxes_train (self : IDTReeS) (fs : FS) (path : string) (boxes : BoxTensor) :
  split self = train ->
  _load_boxes self fs path = Ok boxes ->
  exists table index bs,
    labels self = Some table
    ∧ rasterio_index fs path = Ok index
    ∧ Forall2 (fun r b => derived_box (geometries self) index r = Ok b)
              (rows_of_scene (basename path) table) bs
    ∧ boxes = torch_tensor_boxes bs.
Proof.
  intros Hsplit H. unfold _load_boxes, scene_ids in H. rewrite Hsplit in H.
  destruct (labels self) as [table|]; [|done].
  cbn [of_option mbind result_bind] in H. cbn zeta in H.
  do 3 bind_ok H. inversion H; subst boxes.
  exists table, a0, a1. split_and!; try done.
  apply comprehension_Forall2 in E, E1.
  clear H E0. revert a a1 E E1.
  induction (rows_of_scene (basename path) table) as [|r rows IH];
    intros gs bs Hg Hb.
  - inversion Hg; subst. inversion Hb; subst. constructor.
  - rewrite fmap_cons in Hg. inversion Hg; subst. inversion Hb; subst.
    constructor; [|by eapply IH].
    unfold derived_box. by rewrite H1.
Qed.

(** Over any label table: a returned train sample has as many boxes as
    the table has rows of the scene whose derived box passes the filter,
    and as many labels as boxes. *)
Lemma train_box_count_of_table (self : IDTReeS) (fs : FS) (index : Z)
    (sample : gmap string Value) :
  split self = train ->
  getitem_sample self fs index = Ok sample ->
  exists path image table transform out ls,
    list_getitem (images self) index = Ok path
    ∧ _load_image fs path = Ok image
    ∧ labels self = Some table
    ∧ rasterio_index fs path = Ok transform
    ∧ sample !! "boxes" = Some (VBoxes (TensorN4 out))
    ∧ sample !! "label" = Some (VLabel ls)
    ∧ length out
      = length (filter (fun r => survives (geometries self) transform
                                   ((shape image).1.2, (shape image).2) r = true)
                       (rows_of_scene (basename path) table))
    ∧ length ls = length out.
Proof.
  intros Hsplit H.
  destruct (getitem_sample_train _ _ _ _ Hsplit H)
    as (path & image & boxes & label & out & ls & sample0
        & Hpath & Himage & Hboxes & Hlabel & Hf & -> & _).
  destruct (load_boxes_train _ _ _ _ Hsplit Hboxes)
    as (table & transform & bs & Htable & Htr & Hbs & Hshape).
  assert (bs = boxes) as ->.
  { destruct bs; simpl in Hshape; [done|]. by inversion Hshape. }
  set (size := ((shape image).1.2, (shape image).2)) in *.
  rewrite filter_boxes_N4 in Hf. cbn zeta in Hf.
  destruct (select _ label) as [ls'|] eqn:Hsel; cbn [mbind result_bind] in Hf;
    [|done].
  inversion Hf; subst out ls'. clear Hf.
  eexists path, image, table, transform, _, ls.
  split_and!; try done.
  - rewrite lookup_insert_ne by done. by rewrite lookup_insert_eq.
  - by rewrite lookup_insert_eq.
  - symmetry.
    apply (Forall2_filter_length
             (fun r b' => survives (geometries self) transform size r
                          = keep_box 1 b')).
    + apply Forall2_fmap_r. eapply Forall2_impl; [apply Hbs|].
      intros r b Hrb. unfold survives. by rewrite Hrb.
    + intros r b' Hrb. simpl. fold size. by rewrite Hrb.
  - by eapply select_length.
Qed.

(** C8: before any transform the keys of a sample are the four modality
    keys and, by split and task alone: none for test/task1, ["boxes"] for
    test/task2, ["boxes"] and ["label"] for train. *)
Theorem sample_keys_by_split_and_task (self : IDTReeS) (fs : FS) (index : Z)
    (sample : gmap string Value) :
  getitem_sample self fs index = Ok sample ->
  dom sample = base_keys ∪ target_keys (split self) (task self)
  ∧ (split self = test -> task self = task1 ->
       sample !! "boxes" = None ∧ sample !! "label" = None)
  ∧ (split self = test -> task self = task2 ->
       is_Some (sample !! "boxes") ∧ sample !! "label" = None)
  ∧ (split self = train ->
       is_Some (sample !! "boxes") ∧ is_Some (sample !! "label")).
Proof.
  intros H. unfold getitem_sample in H. do 5 bind_ok H.
  destruct (split self) eqn:Hsplit; [|destruct (task self) eqn:Htask].
  - do 2 bind_ok H. cbn [shape] in H. destruct (shape a0) as [[c h] w].
    bind_ok H. destruct a6 as [boxes label]. inversion H; subst sample.
    split_and!; done.
  - inversion H; subst sample. split_and!; done.
  - bind_ok H. cbn [shape] in H. destruct (shape a0) as [[c h] w].
    bind_ok H. destruct a5 as [boxes label]. inversion H; subst sample.
    split_and!; done.
Qed.

Lemma keys_of_plot_none (base_path : string) (geoms : list (Z * Feature Coord)) :
  Forall (fun kv => exists p, prop_plotID kv.2 = Some p ∧ p ≠ base_path) geoms ->
  keys_of_plot base_path geoms = Ok [].
Proof.
  induction 1 as [|[k v] geoms (p & Hp & Hne) _ IH]; [done|].
  simpl in *. rewrite Hp, IH. simpl. by rewrite bool_decide_eq_false_2.
Qed.

Lemma load_boxes_no_annotations (self : IDTReeS) (fs : FS) (path : string)
    (transform : Coord -> Coord -> Z * Z) :
  rasterio_index fs path = Ok transform ->
  no_annotations self (basename path) ->
  _load_boxes self fs path = Ok Tensor0.
Proof.
  intros Ht Hno. unfold _load_boxes, scene_ids, no_annotations in *.
  cbn zeta. destruct (split self).
  - destruct Hno as (table & Htable & Hrows). rewrite Htable.
    cbn [of_option mbind result_bind]. rewrite Hrows. simpl. by rewrite Ht.
  - destruct Hno as (_ & geoms & Hg & Hno). rewrite Hg.
    cbn [of_option mbind result_bind].
    rewrite (keys_of_plot_none _ _ Hno). simpl. by rewrite Ht.
Qed.

(** C6 on the code: when the scene has its files but no annotation row
    (train) or no geometry (test/task2), [_load_boxes] builds a tensor of
    shape [0] and [_filter_boxes] raises [IndexError] on it, so does
    [__getitem__]. *)
Theorem getitem_without_annotations_raises (self : IDTReeS) (fs : FS) (index : Z)
    (path : string) (image hsi chm : Raster Pixels) (las : Points)
    (transform : Coord -> Coord -> Z * Z) :
  list_getitem (images self) index = Ok path ->
  _load_image fs path = Ok image ->
  _load_image fs (replace path "RGB" "HSI") = Ok hsi ->
  _load_image fs (replace path "RGB" "CHM") = Ok chm ->
  _load_las fs (replace (replace path "RGB" "LAS") ".tif" ".las") = Ok las ->
  rasterio_index fs path = Ok transform ->
  no_annotations self (basename path) ->
  _load_boxes self fs path = Ok (torch_tensor_boxes [])
  ∧ __getitem__ self fs index = Raise IndexError.
Proof.
  intros Hpath Himage Hhsi Hchm Hlas Ht Hno.
  pose proof (load_boxes_no_annotations _ _ _ _ Ht Hno) as Hb.
  split; [done|].
  unfold __getitem__, getitem_sample.
  rewrite Hpath. simpl. rewrite Himage. simpl. rewrite Hhsi. simpl.
  rewrite Hchm. simpl. rewrite Hlas. simpl. rewrite Hb.
  unfold no_annotations in Hno. destruct (split self).
  - destruct Hno as (table & Htable & Hrows). simpl.
    unfold _load_target. rewrite Htable. simpl. rewrite Hrows. simpl.
    by destruct (shape image) as [[c h] w].
  - destruct Hno as (-> & _). simpl. by destruct (shape image) as [[c h] w].
Qed.

Lemma select_Forall {A : Type} (P : A -> Prop) (mask : list bool) (l l' : list A) :
  select mask l = Ok l' -> Forall P l -> Forall P l'.
Proof.
  revert l l'. induction mask as [|k mask IH]; intros l l' Hs Hl.
  - inversion Hs. constructor.
  - destruct k; cbn [select] in Hs.
    + destruct l as [|x l]; [done|].
      destruct (select mask l) as [l0|] eqn:Hl0; [|done].
      inversion Hs; subst. inversion Hl; subst. constructor; [done|].
      by eapply IH.
    + eapply IH; [done|]. destruct l; [done|]. by inversion Hl.
Qed.

Lemma load_target_range (self : IDTReeS) (path : string) (label : Tensor1) :
  _load_target self path = Ok label -> Forall (fun v => 0 <= v < num_classes) label.
Proof.
  unfold _load_target. intros H. destruct (labels self) as [table|]; [|done].
  simpl in H. apply comprehension_Forall2 in H.
  induction H as [|c v cs vs Hc _ IH]; constructor; [|done].
  destruct (class2idx !! c) as [i|] eqn:Hi; [|done].
  inversion Hc; subst. by apply class2idx_Some in Hi as (_ & ? & _).
Qed.

Lemma load_target_unknown_species (self : IDTReeS) (path : string)
    (table : list Row) (r : Row) :
  labels self = Some table ->
  r ∈ rows_of_scene (basename path) table ->
  taxonID r ∉ class_codes ->
  _load_target self path = Raise KeyError.
Proof.
  intros Htable Hr Hcode. unfold _load_target. rewrite Htable. simpl.
  apply comprehension_raise.
  - intros c e'. by destruct (class2idx !! c); intros [=].
  - exists (taxonID r). split; [by apply list_elem_of_fmap_2|].
    destruct (class2idx !! taxonID r) as [i|] eqn:Hi; [|done].
    by apply class2idx_Some in Hi as (_ & _ & ?).
Qed.

(** C10: in the train split every label of a returned sample is an
    integer of [0, 33); and when a row of the scene carries a [taxonID]
    outside the 33 codes, [_load_target] raises [KeyError] and the access
    returns no sample: it raises, and [KeyError] itself once the files and
    the boxes of the scene have loaded. *)
Theorem train_labels_in_range (self : IDTReeS) (fs : FS) (index : Z) :
  split self = train ->
  (forall sample,
      getitem_sample self fs index = Ok sample ->
      exists ls, sample !! "label" = Some (VLabel ls)
                 ∧ Forall (fun v => 0 <= v < 33) ls)
  ∧ (forall path table r,
        list_getitem (images self) index = Ok path ->
        labels self = Some table ->
        r ∈ rows_of_scene (basename path) table ->
        taxonID r ∉ class_codes ->
        _load_target self path = Raise KeyError
        ∧ (exists e, __getitem__ self fs index = Raise e)
        ∧ (forall image hsi chm las boxes,
              _load_image fs path = Ok image ->
              _load_image fs (replace path "RGB" "HSI") = Ok hsi ->
              _load_image fs (replace path "RGB" "CHM") = Ok chm ->
              _load_las fs (replace (replace path "RGB" "LAS") ".tif" ".las")
              = Ok las ->
              _load_boxes self fs path = Ok boxes ->
              __getitem__ self fs index = Raise KeyError)).
Proof.
  intros Hsplit. split.
  - intros sample H.
    destruct (getitem_sample_train _ _ _ _ Hsplit H)
      as (path & image & boxes & label & out & ls & sample0
          & Hpath & Himage & Hboxes & Hlabel & Hf & -> & _).
    exists ls. split; [by rewrite lookup_insert_eq|].
    rewrite filter_boxes_N4 in Hf. cbn zeta in Hf.
    destruct (select _ label) as [ls'|] eqn:Hsel; cbn [mbind result_bind] in Hf;
      [|done].
    inversion Hf; subst. eapply select_Forall; [done|].
    by eapply load_target_range.
  - intros path table r Hpath Htable Hr Hcode.
    pose proof (load_target_unknown_species _ _ _ _ Htable Hr Hcode) as Ht.
    split_and!; [done| |].
    + unfold __getitem__.
      destruct (getitem_sample self fs index) as [sample|e] eqn:Hs; [|by exists e].
      destruct (getitem_sample_train _ _ _ _ Hsplit Hs)
        as (path' & image & boxes & label & out & ls & sample0
            & Hpath' & _ & _ & Hlabel & _).
      congruence.
    + intros image hsi chm las boxes Himage Hhsi Hchm Hlas Hboxes.
      unfold __getitem__, getitem_sample.
      rewrite Hpath. simpl. rewrite Himage. simpl. rewrite Hhsi. simpl.
      rewrite Hchm. simpl. rewrite Hlas. simpl. rewrite Hsplit, Hboxes. simpl.
      by rewrite Ht.
Qed.

End Loader.

(** ** Index construction *)

Section Init.
Context `{W : World}.

(** The label table of a train-split object is the joined table with its
    duplicates dropped. *)
Lemma init_train_table (root : string) (task : Task)
    (transforms : option (gmap string Value -> result (gmap string Value)))
    (download checksum : bool) (fs fs' : FS) (self : IDTReeS) :
  __init__ root train task transforms download checksum fs = Ok (self, fs') ->
  split self = train
  ∧ exists df_labels df_mapping,
      labels self = Some (drop_duplicates (join df_labels df_mapping)).
Proof.
  intros H. unfold __init__ in H.
  destruct (lazy_import "laspy"); [|done]. cbn [mbind result_bind] in H.
  destruct (_verify root train download checksum fs) as [fs1|]; [|done].
  cbn [mbind result_bind] in H.
  destruct (_load train task fs1 root) as [[[imgs geoms] table]|] eqn:Hl; [|done].
  cbn [mbind result_bind] in H. inversion H; subst. split; [done|].
  unfold _load in Hl. simpl in Hl.
  destruct (_load_labels fs' (path_join root "train")) as [tbl|] eqn:Ht; [|done].
  cbn [mbind result_bind] in Hl.
  destruct (_load_geometries train fs' (path_join root "train")); [|done].
  cbn [mbind result_bind] in Hl. inversion Hl; subst.
  unfold _load_labels in Ht.
  destruct (read_csv_mapping fs' _) as [df_mapping|]; [|done].
  cbn [mbind result_bind] in Ht.
  destruct (read_csv_labels fs' _) as [df_labels|]; [|done].
  cbn [mbind result_bind] in Ht. inversion Ht; subst.
  by exists df_labels, df_mapping.
Qed.

End Init.

(** ** The properties on concrete inputs *)

Section Concrete.

#[local] Existing Instance toy_world.

(** C3 as stated fails: a box that reaches past the right and lower edges
    of a 200 x 200 image is clipped to x = 200 and y = 200, which the
    half-open ranges exclude, and the filter returns it so. *)
Lemma clip_reaches_the_image_bound :
  _filter_boxes (200, 200) 1 (TensorN4 [mkBox 190 190 260 240]) None
  = Ok (TensorN4 [mkBox 190 190 200 200], None)
  ∧ ¬ Forall (in_image_half_open (200, 200))
             (clip_box (200, 200) <$> [mkBox 190 190 260 240]).
Proof.
  split; [reflexivity|].
  intros H. apply Forall_cons in H as [H _].
  destruct H as (_ & [_ Hx] & _). vm_compute in Hx. discriminate Hx.
Qed.

Lemma filter_boxes_removes_exactly_small_witness :
  length [3; 5; 8] = length [mkBox 0 0 10 10; mkBox 5 5 5 90; mkBox 190 190 260 240]
  ∧ _filter_boxes (200, 200) 1
      (TensorN4 [mkBox 0 0 10 10; mkBox 5 5 5 90; mkBox 190 190 260 240])
      (Some [3; 5; 8])
    = Ok (TensorN4 [mkBox 0 0 10 10; mkBox 190 190 200 200], Some [3; 8]).
Proof.
  split; [reflexivity|].
  apply (filter_boxes_removes_exactly_small (200, 200) 1
           [mkBox 0 0 10 10; mkBox 5 5 5 90; mkBox 190 190 260 240] [3; 5; 8]).
  reflexivity.
Defined.

Lemma filter_boxes_clips_into_closed_ranges_witness :
  0 <= 200 ∧ 0 <= 200
  ∧ _filter_boxes (200, 200) 1 (TensorN4 [mkBox 190 190 260 240; mkBox (-5) 3 7 9])
                  (Some [1; 2])
    = Ok (TensorN4 [mkBox 190 190 200 200; mkBox 0 3 7 9], Some [1; 2])
  ∧ Forall (fun c => in_image_closed (200, 200) c
                     ∧ exists b, b ∈ [mkBox 190 190 260 240; mkBox (-5) 3 7 9]
                                 ∧ clipped_to (200, 200) b c)
           [mkBox 190 190 200 200; mkBox 0 3 7 9].
Proof.
  split; [lia|]. split; [lia|]. split; [reflexivity|].
  apply (proj2 (filter_boxes_clips_into_closed_ranges 200 200 1
                  [mkBox 190 190 260 240; mkBox (-5) 3 7 9] (Some [1; 2])
                  ltac:(lia) ltac:(lia))
           [mkBox 190 190 200 200; mkBox 0 3 7 9] (Some [1; 2])).
  reflexivity.
Defined.

Lemma filter_boxes_idempotent_witness :
  _filter_boxes (200, 200) 1
    (TensorN4 [mkBox 0 0 10 10; mkBox 5 5 5 90; mkBox 190 190 260 240]) (Some [3; 5; 8])
  = Ok (TensorN4 [mkBox 0 0 10 10; mkBox 190 190 200 200], Some [3; 8])
  ∧ _filter_boxes (200, 200) 1
      (TensorN4 [mkBox 0 0 10 10; mkBox 190 190 200 200]) (Some [3; 8])
    = Ok (TensorN4 [mkBox 0 0 10 10; mkBox 190 190 200 200], Some [3; 8]).
Proof.
  split; [reflexivity|].
  apply (filter_boxes_idempotent (200, 200) 1
           (TensorN4 [mkBox 0 0 10 10; mkBox 5 5 5 90; mkBox 190 190 260 240])
           (Some [3; 5; 8])
           (TensorN4 [mkBox 0 0 10 10; mkBox 190 190 200 200], Some [3; 8])).
  reflexivity.
Defined.

Lemma filter_boxes_preserves_order_witness :
  _filter_boxes (200, 200) 1
    (TensorN4 [mkBox 0 0 10 10; mkBox 5 5 5 90; mkBox 190 190 260 240]) (Some [3; 5; 8])
  = Ok (TensorN4 [mkBox 0 0 10 10; mkBox 190 190 200 200], Some [3; 8])
  ∧ exists (indices : list Z) (out : list Box),
      TensorN4 [mkBox 0 0 10 10; mkBox 190 190 200 200] = TensorN4 out
      ∧ StronglySorted Z.lt indices
      ∧ (length out <= 3)%nat.
Proof.
  split; [reflexivity|].
  destruct (filter_boxes_preserves_order (200, 200) 1
              [mkBox 0 0 10 10; mkBox 5 5 5 90; mkBox 190 190 260 240]
              (Some [3; 5; 8])
              (TensorN4 [mkBox 0 0 10 10; mkBox 190 190 200 200]) (Some [3; 8])
              eq_refl)
    as (indices & out & Hout & Hsorted & _ & _ & _ & Hlen).
  exists indices, out. split_and!; [exact Hout|exact Hsorted|exact Hlen].
Defined.

(** The disks of the verification examples. *)
Lemma verify_decision_order_witness :
  (forall p, path_exists ([] : list string) p = false)
  ∧ _verify "data" train false false ([] : list string) = Raise DatasetNotFoundError
  ∧ __init__ "data" train task1 None false false ([] : list string)
    = Raise DatasetNotFoundError
  ∧ all_present "data" train toy_disk
  ∧ _verify "data" train false false toy_disk = Ok toy_disk.
Proof.
  assert (Hempty : forall p, path_exists ([] : list string) p = false).
  { intros p. apply bool_decide_eq_false_2, not_elem_of_nil. }
  assert (Hall : all_present "data" train toy_disk).
  { intros d Hd. apply list_elem_of_singleton in Hd as ->. reflexivity. }
  split_and!; [exact Hempty| | |exact Hall|].
  - apply (@verify_decision_order toy_world "data" train false false []);
      [exact Hempty|reflexivity].
  - apply (@verify_decision_order toy_world "data" train false false []);
      [reflexivity|exact Hempty|reflexivity].
  - apply (@verify_decision_order toy_world "data" train false false toy_disk).
    exact Hall.
Defined.

Lemma toy_sample_returned : getitem_sample toy_train toy_disk 0 = Ok toy_sample.
Proof. reflexivity. Qed.

Lemma getitem_without_annotations_raises_witness :
  list_getitem (images toy_unlabelled) 0 = Ok toy_scene
  ∧ no_annotations toy_unlabelled (basename toy_scene)
  ∧ __getitem__ toy_unlabelled toy_disk 0 = Raise IndexError.
Proof.
  assert (Hno : no_annotations toy_unlabelled (basename toy_scene)).
  { exists [toy_row "T4" "QUAL" 10 "OSBS_4.tif"]. split; reflexivity. }
  split; [reflexivity|]. split; [exact Hno|].
  apply (@getitem_without_annotations_raises toy_world toy_unlabelled toy_disk 0
           toy_scene toy_raster toy_raster toy_raster ()
           (fun x y => (y, x)));
    try reflexivity. exact Hno.
Defined.

Lemma sample_keys_by_split_and_task_witness :
  getitem_sample toy_train toy_disk 0 = Ok toy_sample
  ∧ dom toy_sample = base_keys ∪ target_keys train task1.
Proof.
  split; [reflexivity|].
  apply (@sample_keys_by_split_and_task toy_world toy_train toy_disk 0 toy_sample).
  reflexivity.
Defined.

Lemma train_labels_in_range_witness :
  split toy_train = train
  ∧ split toy_unknown_species = train
  ∧ (exists ls, toy_sample !! "label" = Some (VLabel ls)
                ∧ Forall (fun v => 0 <= v < 33) ls)
  ∧ _load_target toy_unknown_species toy_scene = Raise KeyError.
Proof.
  split; [reflexivity|]. split; [reflexivity|]. split.
  - apply (proj1 (@train_labels_in_range toy_world toy_train toy_disk 0 eq_refl)).
    reflexivity.
  - apply (proj2 (@train_labels_in_range toy_world toy_unknown_species toy_disk 0
                      eq_refl)
             toy_scene [toy_row "T1" "ABCD" 7 "MLBS_1.tif"]
             (toy_row "T1" "ABCD" 7 "MLBS_1.tif")).
    + reflexivity.
    + reflexivity.
    + apply list_elem_of_here.
    + apply (bool_decide_unpack _). vm_compute. exact I.
Defined.

End Concrete.

(** ** More on the box filter *)

Section BoxFilterEdges.

Lemma clip_box_inside (size : Z * Z) (b : Box) :
  in_image_closed size b -> clip_box size b = b.
Proof.
  destruct size as [h w], b as [x0 y0 x1 y1]. unfold in_image_closed, clip_box, clamp.
  simpl. intros (? & ? & ? & ?). f_equal; lia.
Qed.

Lemma keep_box_empty (size : Z * Z) (min_size : Z) (b : Box) :
  0 < min_size -> empty_in_image size b ->
  keep_box min_size (clip_box size b) = false.
Proof.
  destruct size as [h w], b as [x0 y0 x1 y1].
  unfold empty_in_image, keep_box, clip_box, box_width, box_height, clamp. simpl.
  intros Hm Hb. apply andb_false_iff. rewrite !Z.leb_gt. lia.
Qed.

Lemma filter_none {A : Type} (P : A -> Prop) `{!forall x, Decision (P x)} (l : list A) :
  Forall (fun x => ¬ P x) l -> filter P l = [].
Proof.
  induction 1 as [|x l Hx _ IH]; [done|].
  by rewrite filter_cons, decide_False.
Qed.

Lemma select_none {A : Type} (f : Box -> bool) (rows : list Box) (l : list A) :
  Forall (fun b => f b = false) rows -> select (f <$> rows) l = Ok [].
Proof.
  intros Hall. revert l. induction Hall as [|b rows Hb _ IH]; intros l; [done|].
  rewrite fmap_cons, Hb. cbn [select]. apply IH.
Qed.

(** Boxes that lie in the image and have both sides at least [min_size]
    pass through the filter unchanged, with their labels. *)
Theorem filter_boxes_keeps_boxes_inside
    (size : Z * Z) (min_size : Z) (rows : list Box) (labels : Tensor1) :
  Forall (in_image_closed size) rows ->
  Forall (fun b => min_size <= box_width b ∧ min_size <= box_height b) rows ->
  length labels = length rows ->
  _filter_boxes size min_size (TensorN4 rows) None = Ok (TensorN4 rows, None)
  ∧ _filter_boxes size min_size (TensorN4 rows) (Some labels)
    = Ok (TensorN4 rows, Some labels).
Proof.
  intros Hin Hbig Hlen.
  assert (Hclip : clip_box size <$> rows = rows).
  { rewrite <- (list_fmap_id rows) at 2. apply Forall_fmap_ext.
    eapply Forall_impl; [apply Hin|]. intros b Hb. by apply clip_box_inside. }
  assert (Hkeep : Forall (fun b => keep_box min_size b = true) rows).
  { eapply Forall_impl; [apply Hbig|]. intros b [? ?].
    unfold keep_box. apply andb_true_iff. by rewrite !Z.leb_le. }
  rewrite !filter_boxes_N4, Hclip, (filter_all _ rows Hkeep).
  split; [done|]. by rewrite select_all_true.
Qed.

(** With a positive [min_size], boxes without area inside the image (flat,
    inverted, or past an edge) are all removed: what is left is a tensor
    of shape [0, 4] and no label. *)
Theorem filter_boxes_drops_boxes_outside
    (size : Z * Z) (min_size : Z) (rows : list Box) (labels : Tensor1) :
  0 < min_size ->
  Forall (empty_in_image size) rows ->
  _filter_boxes size min_size (TensorN4 rows) None = Ok (TensorN4 [], None)
  ∧ _filter_boxes size min_size (TensorN4 rows) (Some labels)
    = Ok (TensorN4 [], Some []).
Proof.
  intros Hm Hout.
  assert (Hdrop : Forall (fun b => keep_box min_size b = false)
                         (clip_box size <$> rows)).
  { apply Forall_fmap. eapply Forall_impl; [apply Hout|].
    intros b Hb. by apply keep_box_empty. }
  rewrite !filter_boxes_N4. cbn zeta.
  rewrite filter_none, select_none; [done|done|].
  eapply Forall_impl; [apply Hdrop|]. intros b Hb. simpl. congruence.
Qed.

Lemma select_ok_iff {A : Type} (mask : list bool) (l : list A) :
  (exists l', select mask l = Ok l')
  <-> forall i, mask !! i = Some true -> (i < length l)%nat.
Proof.
  revert l. induction mask as [|k mask IH]; intros l.
  - split; [intros _ i; by rewrite lookup_nil|intros _; by exists []].
  - destruct k; cbn [select].
    + destruct l as [|x l].
      * split; [by intros [l' ?]|]. intros H. specialize (H 0%nat eq_refl).
        simpl in H. lia.
      * split.
        -- intros [l' H] [|i] Hi; simpl; [lia|].
           assert (Hex : exists l0, select mask l = Ok l0).
           { destruct (select mask l) as [l0|]; [by exists l0|done]. }
           pose proof (proj1 (IH l) Hex i Hi). lia.
        -- intros H.
           assert (Hex : exists l0, select mask l = Ok l0).
           { apply (proj2 (IH l)). intros i Hi. specialize (H (S i) Hi).
             simpl in H. lia. }
           destruct Hex as [l0 ->]. by eexists.
    + rewrite IH. split.
      * intros H [|i] Hi; [done|]. specialize (H i Hi).
        destruct l; simpl in *; lia.
      * intros H i Hi. specialize (H (S i) Hi). destruct l; simpl in *; lia.
Qed.

Lemma select_raise {A : Type} (mask : list bool) (l : list A) (e : exn) :
  select mask l = Raise e -> e = IndexError.
Proof.
  revert l. induction mask as [|k mask IH]; intros l H; [done|].
  destruct k; cbn [select] in H.
  - destruct l as [|x l]; [by inversion H|].
    destruct (select mask l) eqn:Hs; [done|]. inversion H; subst. by eapply IH.
  - by eapply IH.
Qed.

Lemma select_take {A : Type} (mask : list bool) (l : list A) :
  select mask (take (length mask) l) = select mask l.
Proof.
  revert l. induction mask as [|k mask IH]; intros l; [done|].
  destruct l as [|x l]; [done|]. destruct k; cbn [select length take tail].
  - by rewrite IH.
  - apply IH.
Qed.

(** Labels that are not parallel to the boxes.  The filter returns exactly
    when every kept position is a position of the label tensor, and raises
    [IndexError] otherwise; labels past the number of boxes are ignored. *)
Theorem filter_boxes_label_length
    (size : Z * Z) (min_size : Z) (rows : list Box) (labels : Tensor1) :
  let clipped := clip_box size <$> rows in
  let kept_in_range :=
    forall i b, clipped !! i = Some b -> keep_box min_size b = true ->
                (i < length labels)%nat in
  ((exists out, _filter_boxes size min_size (TensorN4 rows) (Some labels) = Ok out)
   <-> kept_in_range)
  ∧ (¬ kept_in_range ->
     _filter_boxes size min_size (TensorN4 rows) (Some labels) = Raise IndexError)
  ∧ _filter_boxes size min_size (TensorN4 rows) (Some (take (length rows) labels))
    = _filter_boxes size min_size (TensorN4 rows) (Some labels).
Proof.
  intros clipped kept_in_range.
  assert (Hrange : (exists l', select (keep_box min_size <$> clipped) labels = Ok l')
                   <-> kept_in_range).
  { rewrite select_ok_iff. unfold kept_in_range. split.
    - intros H i b Hb Hk. apply H. by rewrite list_lookup_fmap, Hb; simpl; rewrite Hk.
    - intros H i Hi. rewrite list_lookup_fmap in Hi.
      destruct (clipped !! i) as [b|] eqn:Hb; [|done].
      apply (H i b); [done|]. by inversion Hi. }
  rewrite !filter_boxes_N4. cbn zeta. fold clipped. split_and!.
  - rewrite <- Hrange. split.
    + intros [out H]. destruct (select _ labels) as [l'|]; [by exists l'|done].
    + intros [l' ->]. by eexists.
  - intros Hno. destruct (select _ labels) as [l'|e] eqn:Hs.
    + exfalso. apply Hno, Hrange. by exists l'.
    + by rewrite (select_raise _ _ _ Hs).
  - replace (length rows) with (length (keep_box min_size <$> clipped))
      by (unfold clipped; by rewrite !length_fmap).
    by rewrite select_take.
Qed.

Lemma filter_sublist_impl {A : Type} (P Q : A -> Prop)
    `{!forall x, Decision (P x)} `{!forall x, Decision (Q x)} (l : list A) :
  (forall x, P x -> Q x) -> filter P l `sublist_of` filter Q l.
Proof.
  intros HPQ. induction l as [|x l IH]; [done|].
  rewrite !filter_cons. destruct (decide (P x)) as [HP|HP].
  - rewrite decide_True by auto. by constructor.
  - destruct (decide (Q x)); [by constructor|done].
Qed.

(** Raising [min_size] only removes boxes: the boxes kept for the larger
    minimum are a subsequence of those kept for the smaller one. *)
Theorem filter_boxes_monotone
    (size : Z * Z) (m1 m2 : Z) (rows out1 out2 : list Box) :
  m1 <= m2 ->
  _filter_boxes size m1 (TensorN4 rows) None = Ok (TensorN4 out1, None) ->
  _filter_boxes size m2 (TensorN4 rows) None = Ok (TensorN4 out2, None) ->
  out2 `sublist_of` out1.
Proof.
  intros Hm H1 H2. rewrite filter_boxes_N4 in H1, H2.
  inversion H1; inversion H2; subst.
  apply filter_sublist_impl. intros b. unfold keep_box.
  rewrite !andb_true_iff, !Z.leb_le. lia.
Qed.

End BoxFilterEdges.

(** ** More on loading one scene *)

Section LoaderEdges.
Context `{W : World}.

#[local] Opaque class2idx idx2class.

Ltac bind_ok' H :=
  match type of H with
  | mbind _ ?m = Ok _ =>
      let E := fresh "E" in
      destruct m eqn:E; [cbn [mbind result_bind] in H|discriminate H]
  end.

Lemma foldl_min_spec (x : Z) (xs : list Z) :
  (forall y, y ∈ x :: xs -> foldl Z.min x xs <= y) ∧ foldl Z.min x xs ∈ x :: xs.
Proof.
  revert x. induction xs as [|z xs IH]; intros x; simpl.
  - split; [|by left]. intros y Hy. apply list_elem_of_singleton in Hy. lia.
  - destruct (IH (Z.min x z)) as [Hle Hin]. split.
    + intros y Hy.
      assert (Hm : foldl Z.min (Z.min x z) xs <= Z.min x z) by (apply Hle; by left).
      apply elem_of_cons in Hy as [->|Hy]; [lia|].
      apply elem_of_cons in Hy as [->|Hy]; [lia|]. apply Hle. by right.
    + apply elem_of_cons in Hin as [Hin|Hin].
      * rewrite Hin. destruct (Z.min_spec x z) as [[_ ->]|[_ ->]];
          [by left|right; by left].
      * right. by right.
Qed.

Lemma foldl_max_spec (x : Z) (xs : list Z) :
  (forall y, y ∈ x :: xs -> y <= foldl Z.max x xs) ∧ foldl Z.max x xs ∈ x :: xs.
Proof.
  revert x. induction xs as [|z xs IH]; intros x; simpl.
  - split; [|by left]. intros y Hy. apply list_elem_of_singleton in Hy. lia.
  - destruct (IH (Z.max x z)) as [Hle Hin]. split.
    + intros y Hy.
      assert (Hm : Z.max x z <= foldl Z.max (Z.max x z) xs) by (apply Hle; by left).
      apply elem_of_cons in Hy as [->|Hy]; [lia|].
      apply elem_of_cons in Hy as [->|Hy]; [lia|]. apply Hle. by right.
    + apply elem_of_cons in Hin as [Hin|Hin].
      * rewrite Hin. destruct (Z.max_spec x z) as [[_ ->]|[_ ->]];
          [right; by left|by left].
      * right. by right.
Qed.

Lemma py_min_spec (xs : list Z) (m : Z) :
  py_min xs = Ok m -> (forall y, y ∈ xs -> m <= y) ∧ m ∈ xs.
Proof.
  destruct xs as [|x xs]; [done|]. intros [= <-]. apply foldl_min_spec.
Qed.

Lemma py_max_spec (xs : list Z) (m : Z) :
  py_max xs = Ok m -> (forall y, y ∈ xs -> y <= m) ∧ m ∈ xs.
Proof.
  destruct xs as [|x xs]; [done|]. intros [= <-]. apply foldl_max_spec.
Qed.

(** The box of a geometry is the bounding box of its projected corners:
    it raises [ValueError] exactly on an empty corner list, and otherwise
    every corner's (row, col) lies in it, each side is met by some corner,
    and it is never inverted. *)
Theorem box_of_geom_bounding_box (index : Coord -> Coord -> Z * Z)
    (geom : list (Coord * Coord)) :
  (geom = [] -> box_of_geom index geom = Raise ValueError)
  ∧ (geom ≠ [] ->
     exists b, box_of_geom index geom = Ok b
       ∧ xmin b <= xmax b ∧ ymin b <= ymax b
       ∧ (forall x y, (x, y) ∈ geom ->
            xmin b <= (index x y).2 <= xmax b
            ∧ ymin b <= (index x y).1 <= ymax b)
       ∧ (exists p, p ∈ geom ∧ (index p.1 p.2).2 = xmin b)
       ∧ (exists p, p ∈ geom ∧ (index p.1 p.2).2 = xmax b)
       ∧ (exists p, p ∈ geom ∧ (index p.1 p.2).1 = ymin b)
       ∧ (exists p, p ∈ geom ∧ (index p.1 p.2).1 = ymax b)).
Proof.
  split; [by intros ->|]. intros Hne. unfold box_of_geom.
  set (coords := (fun '(x, y) => index x y) <$> geom).
  assert (Hcoords : forall x y, (x, y) ∈ geom -> index x y ∈ coords).
  { intros x y Hxy. apply list_elem_of_fmap. by exists (x, y). }
  assert (Hback : forall (f : Z * Z -> Z) v, v ∈ f <$> coords ->
            exists p, p ∈ geom ∧ f (index p.1 p.2) = v).
  { intros f v Hv. apply list_elem_of_fmap in Hv as (rc & -> & Hrc).
    apply list_elem_of_fmap in Hrc as ([x y] & -> & Hp). by exists (x, y). }
  assert (Hc : exists rc coords', coords = rc :: coords').
  { unfold coords. destruct geom as [|[x y] geom]; [done|]. simpl. by eexists _, _. }
  destruct Hc as (rc & coords' & Hc).
  destruct (py_min (snd <$> coords)) as [x0|] eqn:Hx0; [|by rewrite Hc in Hx0].
  destruct (py_max (snd <$> coords)) as [x1|] eqn:Hx1; [|by rewrite Hc in Hx1].
  destruct (py_min (fst <$> coords)) as [y0|] eqn:Hy0; [|by rewrite Hc in Hy0].
  destruct (py_max (fst <$> coords)) as [y1|] eqn:Hy1; [|by rewrite Hc in Hy1].
  apply py_min_spec in Hx0 as [Hx0 Hx0in], Hy0 as [Hy0 Hy0in].
  apply py_max_spec in Hx1 as [Hx1 Hx1in], Hy1 as [Hy1 Hy1in].
  cbn [mbind result_bind]. eexists. split; [done|]. cbn [xmin xmax ymin ymax].
  split_and!.
  - apply Hx1, Hx0in.
  - apply Hy1, Hy0in.
  - intros x y Hxy. specialize (Hcoords x y Hxy).
    split; split.
    + apply Hx0. by apply list_elem_of_fmap_2.
    + apply Hx1. by apply list_elem_of_fmap_2.
    + apply Hy0. by apply list_elem_of_fmap_2.
    + apply Hy1. by apply list_elem_of_fmap_2.
  - by apply (Hback snd).
  - by apply (Hback snd).
  - by apply (Hback fst).
  - by apply (Hback fst).
Qed.

(** Indexing follows Python lists: an index outside [-len, len) raises
    [IndexError] whatever is on the disk, and a negative index in range
    reads the scene at [index + len]. *)
Theorem getitem_index_semantics (self : IDTReeS) (fs : FS) (index : Z) :
  (¬ (- __len__ self <= index < __len__ self) ->
     __getitem__ self fs index = Raise IndexError)
  ∧ (- __len__ self <= index < 0 ->
     __getitem__ self fs index = __getitem__ self fs (index + __len__ self)).
Proof.
  unfold __len__, __getitem__, getitem_sample, list_getitem. split.
  - intros Hout. rewrite decide_False by lia. by rewrite decide_False by lia.
  - intros Hneg. rewrite decide_False by lia. rewrite decide_True by lia.
    rewrite (decide_True (P := 0 <= index + _ < _)) by lia.
    by replace (Z.of_nat (length (images self)) + index)
      with (index + Z.of_nat (length (images self))) by lia.
Qed.

Lemma select_fmap_Forall2 {A B : Type} (R : A -> B -> Prop) (f : A -> bool)
    (xs : list A) (ys ys' : list B) :
  Forall2 R xs ys -> select (f <$> xs) ys = Ok ys' ->
  Forall2 R (filter (fun x => f x = true) xs) ys'.
Proof.
  intros HR. revert ys'. induction HR as [|x y xs ys Hxy _ IH]; intros ys' Hs.
  - inversion Hs. constructor.
  - rewrite fmap_cons in Hs. rewrite filter_cons.
    destruct (f x) eqn:Hx; cbn [select tail] in Hs.
    + rewrite decide_True by done.
      destruct (select (f <$> xs) ys) as [l0|]; [|done].
      inversion Hs; subst. constructor; [done|]. by apply IH.
    + rewrite decide_False by congruence. by apply IH.
Qed.

Lemma Forall2_filter_both {A B : Type} (R : A -> B -> Prop)
    (P : A -> Prop) (Q : B -> Prop)
    `{!forall x, Decision (P x)} `{!forall y, Decision (Q y)}
    (l1 : list A) (l2 : list B) :
  Forall2 R l1 l2 -> (forall x y, R x y -> (P x <-> Q y)) ->
  Forall2 R (filter P l1) (filter Q l2).
Proof.
  intros HR HPQ. induction HR as [|x y l1 l2 Hxy _ IH]; [constructor|].
  rewrite !filter_cons. specialize (HPQ x y Hxy).
  destruct (decide (P x)), (decide (Q y)); try tauto. by constructor.
Qed.

(** What a successful test/task2 access went through. *)
Lemma getitem_sample_test2 (self : IDTReeS) (fs : FS) (index : Z)
    (sample : gmap string Value) :
  split self = test -> task self = task2 ->
  getitem_sample self fs index = Ok sample ->
  exists path image boxes out sample0,
    list_getitem (images self) index = Ok path
    ∧ _load_image fs path = Ok image
    ∧ _load_boxes self fs path = Ok (TensorN4 boxes)
    ∧ out = filter (fun b => keep_box 1 b = true)
                   (clip_box ((shape image).1.2, (shape image).2) <$> boxes)
    ∧ sample = <["boxes" := VBoxes (TensorN4 out)]> sample0
    ∧ sample0 !! "label" = None.
Proof.
  intros Hsplit Htask H. unfold getitem_sample in H. rewrite Hsplit, Htask in H.
  do 6 bind_ok' H. cbn [shape] in H.
  destruct (shape a0) as [[c h] w] eqn:Hshape.
  destruct a4 as [|boxes]; [done|].
  rewrite filter_boxes_N4 in H. cbn [mbind result_bind] in H.
  inversion H; subst sample.
  eexists a, a0, boxes, _, _. rewrite Hshape. cbn [fst snd].
  split_and!; done.
Qed.

Lemma getitem_sample_train_out (self : IDTReeS) (fs : FS) (index : Z)
    (sample : gmap string Value) :
  split self = train ->
  getitem_sample self fs index = Ok sample ->
  exists path image boxes label ls sample0,
    list_getitem (images self) index = Ok path
    ∧ _load_image fs path = Ok image
    ∧ _load_boxes self fs path = Ok (TensorN4 boxes)
    ∧ _load_target self path = Ok label
    ∧ select (keep_box 1 <$> (clip_box ((shape image).1.2, (shape image).2)
                                <$> boxes)) label = Ok ls
    ∧ sample
      = <["label" := VLabel ls]>
          (<["boxes" := VBoxes (TensorN4
               (filter (fun b => keep_box 1 b = true)
                       (clip_box ((shape image).1.2, (shape image).2) <$> boxes)))]>
             sample0).
Proof.
  intros Hsplit H.
  destruct (getitem_sample_train _ _ _ _ Hsplit H)
    as (path & image & boxes & label & out & ls & sample0
        & Hpath & Himage & Hboxes & Hlabel & Hf & -> & _).
  rewrite filter_boxes_N4 in Hf. cbn zeta in Hf.
  destruct (select _ label) as [ls'|] eqn:Hsel; cbn [mbind result_bind] in Hf;
    [|done].
  inversion Hf; subst. by eexists path, image, boxes, label, ls, sample0.
Qed.

Lemma kept_boxes_valid (size : Z * Z) (boxes : list Box) :
  Forall (fun b => 1 <= box_width b ∧ 1 <= box_height b
                   ∧ (0 <= size.1 -> 0 <= size.2 -> in_image_closed size b))
         (filter (fun b => keep_box 1 b = true) (clip_box size <$> boxes)).
Proof.
  apply Forall_forall. intros b Hb.
  apply list_elem_of_filter in Hb as [Hk Hb].
  apply list_elem_of_fmap in Hb as (b0 & -> & _).
  unfold keep_box in Hk. apply andb_true_iff in Hk as [Hw Hh].
  apply Z.leb_le in Hw, Hh. split_and!; [done|done|].
  destruct size as [h w]. simpl. intros Hh0 Hw0. by apply clip_box_in_image.
Qed.

(** Every box of a returned sample, in any split, has a width and a height
    of at least one pixel, and lies within the image whose shape the
    sample carries. *)
Theorem getitem_boxes_have_area (self : IDTReeS) (fs : FS) (index : Z)
    (sample : gmap string Value) (v : Value) :
  getitem_sample self fs index = Ok sample ->
  sample !! "boxes" = Some v ->
  exists path image out,
    list_getitem (images self) index = Ok path
    ∧ _load_image fs path = Ok image
    ∧ v = VBoxes (TensorN4 out)
    ∧ Forall (fun b =>
                1 <= box_width b ∧ 1 <= box_height b
                ∧ (0 <= (shape image).1.2 -> 0 <= (shape image).2 ->
                   in_image_closed ((shape image).1.2, (shape image).2) b)) out.
Proof.
  intros H Hv. destruct (split self) eqn:Hsplit; [|destruct (task self) eqn:Htask].
  - destruct (getitem_sample_train_out _ _ _ _ Hsplit H)
      as (path & image & boxes & label & ls & sample0
          & Hpath & Himage & _ & _ & _ & ->).
    rewrite lookup_insert_ne in Hv by done. rewrite lookup_insert_eq in Hv.
    inversion Hv; subst v. eexists path, image, _. split_and!; try done.
    apply (kept_boxes_valid ((shape image).1.2, (shape image).2)).
  - exfalso. unfold getitem_sample in H. rewrite Hsplit, Htask in H.
    do 5 bind_ok' H. inversion H; subst sample. done.
  - destruct (getitem_sample_test2 _ _ _ _ Hsplit Htask H)
      as (path & image & boxes & out & sample0
          & Hpath & Himage & _ & -> & -> & _).
    rewrite lookup_insert_eq in Hv. inversion Hv; subst v.
    eexists path, image, _. split_and!; try done.
    apply (kept_boxes_valid ((shape image).1.2, (shape image).2)).
Qed.

Lemma load_target_Forall2 (self : IDTReeS) (path : string) (table : list Row)
    (label : Tensor1) :
  labels self = Some table ->
  _load_target self path = Ok label ->
  Forall2 (fun r l => class2idx !! taxonID r = Some l)
          (rows_of_scene (basename path) table) label.
Proof.
  intros Htable H. unfold _load_target in H. rewrite Htable in H.
  cbn [of_option mbind result_bind] in H. cbn zeta in H.
  apply comprehension_Forall2, Forall2_fmap_l in H.
  eapply Forall2_impl; [apply H|]. intros r l Hl. simpl in Hl.
  by destruct (class2idx !! taxonID r); inversion Hl.
Qed.

Lemma survives_mask (geoms : option (list (Z * Feature Coord)))
    (transform : Coord -> Coord -> Z * Z) (size : Z * Z)
    (rows : list Row) (boxes : list Box) :
  Forall2 (fun r b => derived_box geoms transform r = Ok b) rows boxes ->
  keep_box 1 <$> (clip_box size <$> boxes) = survives geoms transform size <$> rows.
Proof.
  induction 1 as [|r b rows boxes Hrb _ IH]; [done|].
  rewrite !fmap_cons, IH. f_equal. unfold survives. by rewrite Hrb.
Qed.

(** In the train split the boxes and the labels of a returned sample are
    aligned with the annotation rows: taking the rows of the scene whose
    box passes the filter, in table order, the i-th box is the clipped box
    of the i-th row and the i-th label is the class index of its species. *)
Theorem train_sample_aligned_with_rows (self : IDTReeS) (fs : FS) (index : Z)
    (sample : gmap string Value) :
  split self = train ->
  getitem_sample self fs index = Ok sample ->
  exists path image table transform out ls,
    list_getitem (images self) index = Ok path
    ∧ _load_image fs path = Ok image
    ∧ labels self = Some table
    ∧ rasterio_index fs path = Ok transform
    ∧ sample !! "boxes" = Some (VBoxes (TensorN4 out))
    ∧ sample !! "label" = Some (VLabel ls)
    ∧ let size := ((shape image).1.2, (shape image).2) in
      let rows := filter (fun r => survives (geometries self) transform size r = true)
                         (rows_of_scene (basename path) table) in
      Forall2 (fun r b => exists b0,
                   derived_box (geometries self) transform r = Ok b0
                   ∧ b = clip_box size b0) rows out
      ∧ Forall2 (fun r l => class2idx !! taxonID r = Some l) rows ls.
Proof.
  intros Hsplit H.
  destruct (getitem_sample_train_out _ _ _ _ Hsplit H)
    as (path & image & boxes & label & ls & sample0
        & Hpath & Himage & Hboxes & Hlabel & Hsel & ->).
  destruct (load_boxes_train _ _ _ _ Hsplit Hboxes)
    as (table & transform & bs & Htable & Htr & Hbs & Hshape).
  assert (bs = boxes) as ->.
  { destruct bs; simpl in Hshape; [done|]. by inversion Hshape. }
  set (size := ((shape image).1.2, (shape image).2)) in *.
  eexists path, image, table, transform, _, ls.
  split_and!; try done.
  - rewrite lookup_insert_ne by done. by rewrite lookup_insert_eq.
  - by rewrite lookup_insert_eq.
  - cbn zeta. fold size. split.
    + apply (Forall2_filter_both
               (fun r b => exists b0, derived_box (geometries self) transform r = Ok b0
                                      ∧ b = clip_box size b0)).
      * apply Forall2_fmap_r. eapply Forall2_impl; [apply Hbs|].
        intros r b Hrb. by exists b.
      * intros r b (b0 & Hrb & ->). unfold survives. by rewrite Hrb.
    + rewrite (survives_mask _ _ size _ _ Hbs) in Hsel.
      eapply select_fmap_Forall2; [|apply Hsel].
      by eapply load_target_Forall2.
Qed.

Lemma class_names_of_rows (rows : list Row) (ls : Tensor1) :
  Forall2 (fun r l => class2idx !! taxonID r = Some l) rows ls ->
  class_names ls = Ok (taxonID <$> rows).
Proof.
  unfold class_names. induction 1 as [|r l rows ls Hrl _ IH]; [done|].
  simpl. apply class2idx_Some in Hrl as [-> _]. simpl. by rewrite IH.
Qed.

(** The names that [plot] looks up for the labels of a returned train
    sample are the species codes of the annotation rows whose boxes were
    kept, in order; the lookup cannot raise [KeyError] on such a sample. *)
Theorem class_names_of_train_sample (self : IDTReeS) (fs : FS) (index : Z)
    (sample : gmap string Value) :
  split self = train ->
  getitem_sample self fs index = Ok sample ->
  exists path image table transform ls,
    list_getitem (images self) index = Ok path
    ∧ _load_image fs path = Ok image
    ∧ labels self = Some table
    ∧ rasterio_index fs path = Ok transform
    ∧ sample !! "label" = Some (VLabel ls)
    ∧ class_names ls
      = Ok (taxonID <$>
              filter (fun r => survives (geometries self) transform
                                 ((shape image).1.2, (shape image).2) r = true)
                     (rows_of_scene (basename path) table)).
Proof.
  intros Hsplit H.
  destruct (getitem_sample_train_out _ _ _ _ Hsplit H)
    as (path & image & boxes & label & ls & sample0
        & Hpath & Himage & Hboxes & Hlabel & Hsel & ->).
  destruct (load_boxes_train _ _ _ _ Hsplit Hboxes)
    as (table & transform & bs & Htable & Htr & Hbs & Hshape).
  assert (bs = boxes) as ->.
  { destruct bs; simpl in Hshape; [done|]. by inversion Hshape. }
  set (size := ((shape image).1.2, (shape image).2)) in *.
  exists path, image, table, transform, ls. split_and!; try done.
  - by rewrite lookup_insert_eq.
  - apply class_names_of_rows.
    rewrite (survives_mask _ _ size _ _ Hbs) in Hsel.
    eapply select_fmap_Forall2; [|apply Hsel].
    by eapply load_target_Forall2.
Qed.

(** A label outside [0, 33) has no name: the lookup raises [KeyError];
    labels inside have one name each. *)
Theorem class_names_range (label : Tensor1) :
  (Forall (fun v => 0 <= v < 33) label ->
     exists names, class_names label = Ok names ∧ length names = length label)
  ∧ (Exists (fun v => ¬ (0 <= v < 33)) label ->
     class_names label = Raise KeyError).
Proof.
  split.
  - induction 1 as [|v label Hv _ (names & IH & Hlen)]; [by exists []|].
    assert (Hn : is_Some (idx2class !! v)).
    { pose proof class_indices_named as Hall. rewrite Forall_forall in Hall.
      apply Hall, elem_of_seqZ. lia. }
    destruct Hn as [c Hc]. exists (c :: names). unfold class_names in *. simpl.
    rewrite Hc, IH. simpl. by rewrite Hlen.
  - intros Hex. apply comprehension_raise.
    + intros i e'. by destruct (idx2class !! i); intros [=].
    + apply Exists_exists in Hex as (v & Hv & Hout). exists v. split; [done|].
      destruct (idx2class !! v) as [c|] eqn:Hc; [|done].
      by apply idx2class_Some in Hc as [_ ?].
Qed.

End LoaderEdges.

(** ** Scenes of the test split and missing geometries *)

Section Geometries.
Context `{W : World}.

#[local] Opaque class2idx idx2class.

Ltac bind_ok2 H :=
  match type of H with
  | mbind _ ?m = Ok _ =>
      let E := fresh "E" in
      destruct m eqn:E; [cbn [mbind result_bind] in H|discriminate H]
  end.

Lemma keys_of_plot_ok (base_path : string) (geoms : list (Z * Feature Coord))
    (ids : list (option Z)) :
  keys_of_plot base_path geoms = Ok ids ->
  ids = (fun kv => Some kv.1)
          <$> filter (fun kv => prop_plotID kv.2 = Some base_path) geoms.
Proof.
  revert ids. induction geoms as [|[k v] geoms IH]; intros ids H; simpl in H.
  - by inversion H.
  - destruct (prop_plotID v) as [plot|] eqn:Hp; [|done].
    cbn [of_option mbind result_bind] in H. bind_ok2 H.
    rewrite filter_cons. cbn [snd]. rewrite Hp.
    inversion H; subst ids. rewrite (IH a eq_refl).
    destruct (decide (plot = base_path)) as [->|Hne].
    + rewrite bool_decide_eq_true_2 by done. by rewrite decide_True.
    + rewrite bool_decide_eq_false_2 by done. by rewrite decide_False by congruence.
Qed.

Lemma keys_of_plot_raise (base_path : string) (geoms : list (Z * Feature Coord)) :
  Exists (fun kv => prop_plotID kv.2 = None) geoms ->
  keys_of_plot base_path geoms = Raise KeyError.
Proof.
  induction geoms as [|[k v] geoms IH]; intros Hex; [by inversion Hex|].
  simpl. destruct (prop_plotID v) as [plot|] eqn:Hp; [|done].
  cbn [of_option mbind result_bind].
  apply Exists_cons in Hex as [Hex|Hex]; [simpl in Hex; congruence|].
  by rewrite IH.
Qed.

Lemma load_boxes_test (self : IDTReeS) (fs : FS) (path : string) (boxes : BoxTensor) :
  split self = test ->
  _load_boxes self fs path = Ok boxes ->
  exists geoms index bs,
    geometries self = Some geoms
    ∧ rasterio_index fs path = Ok index
    ∧ Forall2 (fun kv b => box_of_id (Some geoms) index (Some kv.1) = Ok b)
              (filter (fun kv => prop_plotID kv.2 = Some (basename path)) geoms) bs
    ∧ boxes = torch_tensor_boxes bs.
Proof.
  intros Hsplit H. unfold _load_boxes, scene_ids in H. rewrite Hsplit in H.
  destruct (geometries self) as [geoms|]; [|done].
  cbn [of_option mbind result_bind] in H. cbn zeta in H.
  do 4 bind_ok2 H. inversion H; subst boxes.
  exists geoms, a1, a2. split_and!; try done.
  apply keys_of_plot_ok in E. subst a.
  apply comprehension_Forall2 in E0, E2.
  clear H E1. revert a0 a2 E0 E2.
  induction (filter _ geoms) as [|kv kvs IH]; intros gs bs Hg Hb.
  - inversion Hg; subst. inversion Hb; subst. constructor.
  - rewrite fmap_cons in Hg. inversion Hg; subst. inversion Hb; subst.
    constructor; [|by eapply IH].
    unfold box_of_id. by rewrite H1.
Qed.

(** In test/task2 the boxes of a returned sample are those of the
    geometries whose [plotID] is the base name of the scene file and whose
    box passes the filter, one clipped box each, in the order of the
    geometry dictionary; and the sample has no label. *)
Theorem test_boxes_from_geometries (self : IDTReeS) (fs : FS) (index : Z)
    (sample : gmap string Value) :
  split self = test -> task self = task2 ->
  getitem_sample self fs index = Ok sample ->
  exists path image geoms transform out,
    list_getitem (images self) index = Ok path
    ∧ _load_image fs path = Ok image
    ∧ geometries self = Some geoms
    ∧ rasterio_index fs path = Ok transform
    ∧ sample !! "boxes" = Some (VBoxes (TensorN4 out))
    ∧ sample !! "label" = None
    ∧ let size := ((shape image).1.2, (shape image).2) in
      Forall2 (fun kv b => exists b0,
                   box_of_id (Some geoms) transform (Some kv.1) = Ok b0
                   ∧ b = clip_box size b0)
              (filter (fun kv => id_survives (Some geoms) transform size
                                   (Some kv.1) = true)
                      (filter (fun kv => prop_plotID kv.2 = Some (basename path))
                              geoms))
              out.
Proof.
  intros Hsplit Htask H.
  destruct (getitem_sample_test2 _ _ _ _ Hsplit Htask H)
    as (path & image & boxes & out & sample0
        & Hpath & Himage & Hboxes & -> & -> & Hnone).
  destruct (load_boxes_test _ _ _ _ Hsplit Hboxes)
    as (geoms & transform & bs & Hgeoms & Htr & Hbs & Hshape).
  assert (bs = boxes) as ->.
  { destruct bs; simpl in Hshape; [done|]. by inversion Hshape. }
  set (size := ((shape image).1.2, (shape image).2)) in *.
  eexists path, image, geoms, transform, _. split_and!; try done.
  - by rewrite lookup_insert_eq.
  - by rewrite lookup_insert_ne.
  - cbn zeta. fold size.
    apply (Forall2_filter_both
             (fun kv b => exists b0, box_of_id (Some geoms) transform (Some kv.1) = Ok b0
                                     ∧ b = clip_box size b0)).
    + apply Forall2_fmap_r. eapply Forall2_impl; [apply Hbs|].
      intros kv b Hkv. by exists b.
    + intros kv b (b0 & Hkv & ->). unfold id_survives. by rewrite Hkv.
Qed.

(** In the test split one geometry without a [plotID] property breaks
    every scene: [_load_boxes] raises [KeyError] whatever the path, and so
    does [__getitem__] for task 2 once the files of the scene have loaded. *)
Theorem test_geometry_without_plot_id (self : IDTReeS) (fs : FS)
    (geoms : list (Z * Feature Coord)) :
  split self = test ->
  geometries self = Some geoms ->
  Exists (fun kv => prop_plotID kv.2 = None) geoms ->
  (forall path, _load_boxes self fs path = Raise KeyError)
  ∧ (forall index path image hsi chm las,
        task self = task2 ->
        list_getitem (images self) index = Ok path ->
        _load_image fs path = Ok image ->
        _load_image fs (replace path "RGB" "HSI") = Ok hsi ->
        _load_image fs (replace path "RGB" "CHM") = Ok chm ->
        _load_las fs (replace (replace path "RGB" "LAS") ".tif" ".las") = Ok las ->
        __getitem__ self fs index = Raise KeyError).
Proof.
  intros Hsplit Hgeoms Hex.
  assert (Hb : forall path, _load_boxes self fs path = Raise KeyError).
  { intros path. unfold _load_boxes, scene_ids. rewrite Hsplit, Hgeoms.
    cbn [of_option mbind result_bind]. by rewrite keys_of_plot_raise. }
  split; [done|].
  intros index path image hsi chm las Htask Hpath Himage Hhsi Hchm Hlas.
  unfold __getitem__, getitem_sample.
  rewrite Hpath. simpl. rewrite Himage. simpl. rewrite Hhsi. simpl.
  rewrite Hchm. simpl. rewrite Hlas. simpl. by rewrite Hsplit, Htask, Hb.
Qed.

Lemma dict_getitem_missing {V : Type} (k : Z) (d : list (Z * V)) :
  k ∉ d.*1 -> dict_getitem k d = Raise KeyError.
Proof.
  induction d as [|[k' v] d IH]; intros Hk; [done|]. simpl.
  rewrite fmap_cons, not_elem_of_cons in Hk. destruct Hk as [Hne Hk].
  rewrite decide_False by (simpl in Hne; congruence). by apply IH.
Qed.

Lemma dict_getitem_elem {V : Type} (k : Z) (d : list (Z * V)) (v : V) :
  dict_getitem k d = Ok v -> (k, v) ∈ d.
Proof.
  induction d as [|[k' v'] d IH]; intros H; [done|]. simpl in H.
  destruct (decide (k' = k)) as [->|_].
  - inversion H; subst. by left.
  - right. by apply IH.
Qed.

Lemma dict_getitem_raise {V : Type} (k : Z) (d : list (Z * V)) (e : exn) :
  dict_getitem k d = Raise e -> e = KeyError.
Proof.
  induction d as [|[k' v'] d IH]; intros H; [by inversion H|]. simpl in H.
  destruct (decide (k' = k)); [done|]. by apply IH.
Qed.

Lemma list_getitem_head {A : Type} (x : A) (xs : list A) :
  list_getitem (x :: xs) 0 = Ok x.
Proof.
  unfold list_getitem. rewrite decide_True; [done|].
  rewrite length_cons. lia.
Qed.

Lemma corners_raise (geoms : list (Z * Feature Coord)) (i : option Z) (e : exn) :
  Forall (fun kv => coordinates kv.2 ≠ []) geoms ->
  corners (Some geoms) i = Raise e -> e = KeyError.
Proof.
  intros Hne H. unfold corners in H. cbn [of_option mbind result_bind] in H.
  destruct i as [k|]; [|by inversion H]. cbn [of_option mbind result_bind] in H.
  destruct (dict_getitem k geoms) as [v|e'] eqn:Hk.
  - exfalso. apply dict_getitem_elem in Hk. rewrite Forall_forall in Hne.
    specialize (Hne _ Hk). simpl in Hne. cbn [mbind result_bind] in H.
    destruct (coordinates v) as [|ring rings]; [done|].
    by rewrite list_getitem_head in H.
  - cbn [mbind result_bind] in H. inversion H; subst.
    by eapply dict_getitem_raise.
Qed.

(** In the train split a row of the scene whose id is NaN or is not a key
    of the geometry dictionary makes [_load_boxes] raise [KeyError] (no
    geometry of the dictionary having an empty coordinate list). *)
Theorem train_row_without_geometry (self : IDTReeS) (fs : FS) (path : string)
    (table : list Row) (geoms : list (Z * Feature Coord)) (r : Row) :
  split self = train ->
  labels self = Some table ->
  geometries self = Some geoms ->
  Forall (fun kv => coordinates kv.2 ≠ []) geoms ->
  r ∈ rows_of_scene (basename path) table ->
  (row_id r = None ∨ exists k, row_id r = Some k ∧ k ∉ geoms.*1) ->
  _load_boxes self fs path = Raise KeyError.
Proof.
  intros Hsplit Htable Hgeoms Hne Hr Hid.
  unfold _load_boxes, scene_ids. rewrite Hsplit, Htable, Hgeoms.
  cbn [of_option mbind result_bind]. cbn zeta.
  rewrite (comprehension_raise (corners (Some geoms)) KeyError); [done| |].
  - intros i e'. by apply corners_raise.
  - exists (row_id r). split; [by apply list_elem_of_fmap_2|].
    unfold corners. cbn [of_option mbind result_bind].
    destruct Hid as [->|(k & -> & Hk)]; [done|].
    cbn [of_option mbind result_bind]. by rewrite dict_getitem_missing.
Qed.

End Geometries.

(** ** The geometry dictionary *)

Section GeometryIndex.
Context `{W : World}.

Lemma dict_setitem_fresh {V : Type} (k : Z) (v : V) (d : list (Z * V)) :
  k ∉ d.*1 -> dict_setitem k v d = d ++ [(k, v)].
Proof.
  induction d as [|[k' v'] d IH]; intros Hk; [done|]. simpl.
  rewrite fmap_cons, not_elem_of_cons in Hk. destruct Hk as [Hne Hk].
  rewrite decide_False by (simpl in Hne; congruence). by rewrite IH.
Qed.

Lemma dict_setitem_keys {V : Type} (k : Z) (v : V) (d : list (Z * V)) :
  (dict_setitem k v d).*1 = if decide (k ∈ d.*1) then d.*1 else d.*1 ++ [k].
Proof.
  induction d as [|[k' v'] d IH]; [done|]. simpl.
  destruct (decide (k' = k)) as [->|Hne].
  - rewrite decide_True by (by left). done.
  - rewrite fmap_cons, IH. simpl. destruct (decide (k ∈ d.*1)) as [Hin|Hin].
    + by rewrite decide_True by (by right).
    + rewrite decide_False; [done|]. rewrite not_elem_of_cons. split; [congruence|done].
Qed.

Lemma dict_getitem_setitem {V : Type} (k k' : Z) (v : V) (d : list (Z * V)) :
  dict_getitem k' (dict_setitem k v d)
  = if decide (k = k') then Ok v else dict_getitem k' d.
Proof.
  induction d as [|[k0 v0] d IH]; simpl.
  - by destruct (decide (k = k')).
  - destruct (decide (k0 = k)) as [->|Hne]; simpl.
    + by destruct (decide (k = k')).
    + rewrite IH. destruct (decide (k0 = k')) as [->|]; [|done].
      by rewrite decide_False.
Qed.

Lemma dict_setitem_NoDup {V : Type} (k : Z) (v : V) (d : list (Z * V)) :
  NoDup d.*1 -> NoDup (dict_setitem k v d).*1.
Proof.
  intros Hd. rewrite dict_setitem_keys. destruct (decide (k ∈ d.*1)); [done|].
  apply NoDup_app. split_and!; [done| |apply NoDup_singleton].
  intros x Hx Hx'. apply list_elem_of_singleton in Hx'. by subst.
Qed.

(** The inner loop over the features of one file, test split. *)
Lemma add_features_test (i : Z) (d : list (Z * Feature Coord))
    (src : list (Feature Coord)) :
  Forall (fun k => k < i) d.*1 ->
  for_each (add_feature test) (i, d) src
  = Ok (i + Z.of_nat (length src), d ++ enumerate_from i src).
Proof.
  revert i d. induction src as [|f src IH]; intros i d Hd.
  - simpl. by rewrite Z.add_0_r, app_nil_r.
  - cbn [for_each add_feature mbind result_bind].
    rewrite dict_setitem_fresh.
    + rewrite IH.
      * cbn [enumerate_from length]. rewrite <- app_assoc. do 2 f_equal. lia.
      * rewrite fmap_app, Forall_app. split.
        -- eapply Forall_impl; [apply Hd|]. simpl. lia.
        -- repeat constructor. simpl. lia.
    + intros Hin. rewrite Forall_forall in Hd. specialize (Hd i Hin). lia.
Qed.

Lemma enumerate_from_keys {A : Type} (i : Z) (xs : list A) :
  Forall (fun k => i <= k < i + Z.of_nat (length xs)) (enumerate_from i xs).*1.
Proof.
  revert i. induction xs as [|x xs IH]; intros i; [constructor|].
  cbn [enumerate_from fmap list_fmap length]. constructor; [simpl; lia|].
  eapply Forall_impl; [apply (IH (i + 1))|]. simpl. lia.
Qed.

Lemma enumerate_from_app {A : Type} (i : Z) (xs ys : list A) :
  enumerate_from i (xs ++ ys)
  = enumerate_from i xs ++ enumerate_from (i + Z.of_nat (length xs)) ys.
Proof.
  revert i. induction xs as [|x xs IH]; intros i.
  - simpl. by rewrite Z.add_0_r.
  - cbn [app enumerate_from length]. rewrite IH. do 3 f_equal. lia.
Qed.

Lemma load_files_test (fs : FS) (i : Z) (d : list (Z * Feature Coord))
    (filepaths : list string) :
  Forall (fun k => k < i) d.*1 ->
  for_each (fun st path => src ← fiona_open fs path;
                           for_each (add_feature test) st src)
           (i, d) filepaths
  = (featss ← comprehension (fiona_open fs) filepaths;
     Ok (i + Z.of_nat (length (concat featss)),
         d ++ enumerate_from i (concat featss))).
Proof.
  revert i d. induction filepaths as [|path filepaths IH]; intros i d Hd.
  - simpl. by rewrite Z.add_0_r, app_nil_r.
  - cbn [for_each comprehension].
    destruct (fiona_open fs path) as [src|e]; [|done].
    cbn [mbind result_bind]. rewrite add_features_test by done.
    cbn [mbind result_bind]. rewrite IH.
    + destruct (comprehension (fiona_open fs) filepaths) as [featss|e]; [|done].
      cbn [mbind result_bind concat].
      rewrite length_app, enumerate_from_app, <- app_assoc. do 2 f_equal. lia.
    + rewrite fmap_app, Forall_app. split.
      * eapply Forall_impl; [apply Hd|]. simpl. lia.
      * eapply Forall_impl; [apply enumerate_from_keys|]. simpl. lia.
Qed.

(** In the test split [_load_geometries] numbers the features of all the
    shape files from 0, in file order and in the order of each file: no
    feature is lost, and it fails only where opening a file fails. *)
Theorem load_geometries_test_enumerates (fs : FS) (directory : string) :
  _load_geometries test fs directory
  = (featss ← comprehension (fiona_open fs)
                (glob fs (path_join_all directory ["ITC"; "*.shp"]));
     Ok (enumerate (concat featss))).
Proof.
  unfold _load_geometries. rewrite load_files_test by constructor.
  by destruct (comprehension _ _).
Qed.

(** The inner loop over the features of one file, train split. *)
Lemma add_features_train (i : Z) (d : list (Z * Feature Coord))
    (src : list (Feature Coord)) (st : Z * list (Z * Feature Coord)) :
  for_each (add_feature train) (i, d) src = Ok st ->
  NoDup d.*1 ->
  st.1 = i
  ∧ NoDup st.2.*1
  ∧ Forall (fun f => is_Some (prop_id f)) src
  ∧ (forall k, dict_getitem k st.2
               = match last (filter (fun f => prop_id f = Some k) src) with
                 | Some f => Ok f
                 | None => dict_getitem k d
                 end).
Proof.
  revert i d. induction src as [|f src IH]; intros i d H Hd.
  - inversion H; subst. simpl. split_and!; done.
  - cbn [for_each add_feature] in H.
    destruct (prop_id f) as [kf|] eqn:Hf; [|done].
    cbn [of_option mbind result_bind] in H.
    destruct (IH _ _ H (dict_setitem_NoDup kf f d Hd)) as (Hi & Hnd & Hall & Hget).
    split_and!; try done.
    + constructor; [by rewrite Hf|done].
    + intros k. rewrite Hget, filter_cons, dict_getitem_setitem.
      destruct (decide (prop_id f = Some k)) as [Hk|Hk].
      * rewrite last_cons. destruct (last _); [done|].
        rewrite decide_True by congruence. done.
      * destruct (last _); [done|]. rewrite decide_False by congruence. done.
Qed.

Lemma add_features_train_raise (i : Z) (d : list (Z * Feature Coord))
    (src : list (Feature Coord)) :
  Exists (fun f => prop_id f = None) src ->
  for_each (add_feature train) (i, d) src = Raise KeyError.
Proof.
  revert d. induction src as [|f src IH]; intros d Hex; [by inversion Hex|].
  cbn [for_each add_feature]. destruct (prop_id f) as [kf|] eqn:Hf; [|done].
  cbn [of_option mbind result_bind]. apply IH.
  apply Exists_cons in Hex as [Hex|Hex]; [congruence|done].
Qed.

Lemma load_files_train (fs : FS) (i : Z) (d : list (Z * Feature Coord))
    (filepaths : list string) (st : Z * list (Z * Feature Coord)) :
  for_each (fun st path => src ← fiona_open fs path;
                           for_each (add_feature train) st src)
           (i, d) filepaths = Ok st ->
  NoDup d.*1 ->
  exists featss,
    comprehension (fiona_open fs) filepaths = Ok featss
    ∧ NoDup st.2.*1
    ∧ Forall (fun f => is_Some (prop_id f)) (concat featss)
    ∧ (forall k, dict_getitem k st.2
                 = match last (filter (fun f => prop_id f = Some k)
                                      (concat featss)) with
                   | Some f => Ok f
                   | None => dict_getitem k d
                   end).
Proof.
  revert i d. induction filepaths as [|path filepaths IH]; intros i d H Hd.
  - inversion H; subst. exists []. split_and!; done.
  - cbn [for_each comprehension] in *.
    destruct (fiona_open fs path) as [src|e]; [|done].
    cbn [mbind result_bind] in *.
    destruct (for_each (add_feature train) (i, d) src) as [[i1 d1]|] eqn:H1; [|done].
    cbn [mbind result_bind] in H.
    destruct (add_features_train _ _ _ _ H1 Hd) as (_ & Hnd1 & Hall1 & Hget1).
    destruct (IH _ _ H Hnd1) as (featss & -> & Hnd & Hall & Hget).
    exists (src :: featss). cbn [mbind result_bind concat].
    split_and!; try done.
    + by apply Forall_app.
    + intros k. rewrite Hget, filter_app, last_app.
      destruct (last (filter _ (concat featss))); [done|]. apply Hget1.
Qed.

(** In the train split a returned geometry dictionary has one entry per
    id; every feature of the files carries an id; and the entry of an id
    is the last feature with that id, in file order, so an earlier feature
    with the same id is replaced.  An id that no feature has is absent. *)
Theorem load_geometries_train_last_wins (fs : FS) (directory : string)
    (d : list (Z * Feature Coord)) :
  _load_geometries train fs directory = Ok d ->
  exists featss,
    comprehension (fiona_open fs)
      (glob fs (path_join_all directory ["ITC"; "*.shp"])) = Ok featss
    ∧ NoDup d.*1
    ∧ Forall (fun f => is_Some (prop_id f)) (concat featss)
    ∧ (forall k, dict_getitem k d
                 = of_option KeyError
                     (last (filter (fun f => prop_id f = Some k) (concat featss)))).
Proof.
  intros H. unfold _load_geometries in H.
  destruct (for_each _ _ _) as [st|] eqn:Hst; [|done].
  cbn [mbind result_bind] in H. inversion H; subst d.
  assert (Hnil : NoDup ([] : list (Z * Feature Coord)).*1) by constructor.
  destruct (load_files_train _ _ _ _ _ Hst Hnil) as (featss & Hf & Hnd & Hall & Hget).
  exists featss. split_and!; [done|done|done|].
  intros k. rewrite Hget. by destruct (last _).
Qed.

Lemma load_files_train_raise (fs : FS) (i : Z) (d : list (Z * Feature Coord))
    (filepaths : list string) (featss : list (list (Feature Coord))) :
  comprehension (fiona_open fs) filepaths = Ok featss ->
  Exists (fun f => prop_id f = None) (concat featss) ->
  for_each (fun st path => src ← fiona_open fs path;
                           for_each (add_feature train) st src)
           (i, d) filepaths = Raise KeyError.
Proof.
  revert i d featss. induction filepaths as [|path filepaths IH];
    intros i d featss Hf Hex.
  - inversion Hf; subst. by inversion Hex.
  - cbn [for_each comprehension] in *.
    destruct (fiona_open fs path) as [src|e]; [|done].
    cbn [mbind result_bind] in *.
    destruct (comprehension (fiona_open fs) filepaths) as [featss'|] eqn:Hf';
      [|done].
    cbn [mbind result_bind] in Hf. inversion Hf; subst featss.
    cbn [concat] in Hex. apply Exists_app in Hex.
    destruct (for_each (add_feature train) (i, d) src) as [[i1 d1]|e] eqn:H1.
    + cbn [mbind result_bind]. destruct Hex as [Hex|Hex].
      * by rewrite add_features_train_raise in H1.
      * by eapply IH.
    + cbn [mbind result_bind]. f_equal.
      clear -H1. revert d H1. induction src as [|f src IHs]; intros d H1; [done|].
      cbn [for_each add_feature] in H1.
      destruct (prop_id f); [|by inversion H1].
      cbn [of_option mbind result_bind] in H1. by eapply IHs.
Qed.

(** In the train split a feature without an [id] property, in shape files
    that all open, makes [_load_geometries] raise [KeyError]. *)
Theorem load_geometries_train_needs_ids (fs : FS) (directory : string)
    (featss : list (list (Feature Coord))) :
  comprehension (fiona_open fs)
    (glob fs (path_join_all directory ["ITC"; "*.shp"])) = Ok featss ->
  Exists (fun f => prop_id f = None) (concat featss) ->
  _load_geometries train fs directory = Raise KeyError.
Proof.
  intros Hf Hex. unfold _load_geometries.
  by rewrite (load_files_train_raise _ _ _ _ _ Hf Hex).
Qed.

End GeometryIndex.

(** ** The label table, verification and construction *)

Section Construction.
Context `{W : World}.

Lemma same_columns_spec (r1 r2 : Row) :
  same_columns r1 r2 = true <-> columns r1 = columns r2.
Proof.
  unfold same_columns, columns. rewrite !andb_true_iff, !bool_decide_eq_true.
  split; [intros [[[-> ->] ->] ->]; done|]. by intros [= -> -> -> ->].
Qed.

Lemma existsb_same_columns (r : Row) (seen : list Row) :
  existsb (same_columns r) seen = true <-> columns r ∈ columns <$> seen.
Proof.
  rewrite existsb_exists, list_elem_of_fmap. split.
  - intros (r' & Hin & Hs). exists r'. split; [by apply same_columns_spec|].
    by apply list_elem_of_In.
  - intros (r' & Hc & Hin). exists r'. split; [by apply list_elem_of_In|].
    by apply same_columns_spec.
Qed.

Lemma drop_duplicates_from_spec (seen rows : list Row) :
  let out := drop_duplicates_from seen rows in
  NoDup (columns <$> out)
  ∧ (forall r, r ∈ out -> r ∈ rows ∧ columns r ∉ columns <$> seen)
  ∧ (forall r, r ∈ rows -> columns r ∈ columns <$> (seen ++ out)).
Proof.
  revert seen. induction rows as [|r rows IH]; intros seen; cbn zeta.
  - simpl. split_and!; [constructor| |]; intros r Hr; by apply elem_of_nil in Hr.
  - cbn [drop_duplicates_from].
    destruct (existsb (same_columns r) seen) eqn:Hex.
    + destruct (IH seen) as (Hnd & Hsub & Hcov). split_and!; [done| |].
      * intros r' Hr'. destruct (Hsub r' Hr') as [? ?]. split; [by right|done].
      * intros r' Hr'. apply elem_of_cons in Hr' as [->|Hr']; [|by apply Hcov].
        apply existsb_same_columns in Hex. rewrite fmap_app, elem_of_app. by left.
    + destruct (IH (r :: seen)) as (Hnd & Hsub & Hcov).
      assert (Hnew : columns r ∉ columns <$> seen).
      { intros Hin. apply existsb_same_columns in Hin. congruence. }
      split_and!.
      * rewrite fmap_cons. constructor; [|done].
        intros Hin. apply list_elem_of_fmap in Hin as (r' & Hc & Hr').
        destruct (Hsub r' Hr') as [_ Hnot]. apply Hnot. rewrite fmap_cons, Hc.
        by left.
      * intros r' Hr'. apply elem_of_cons in Hr' as [->|Hr']; [split; [by left|done]|].
        destruct (Hsub r' Hr') as [? Hnot]. split; [by right|].
        intros Hin. apply Hnot. rewrite fmap_cons. by right.
      * intros r' Hr'. rewrite fmap_app, fmap_cons, elem_of_app, elem_of_cons.
        apply elem_of_cons in Hr' as [->|Hr']; [right; by left|].
        specialize (Hcov r' Hr').
        rewrite fmap_app, fmap_cons, elem_of_app, elem_of_cons in Hcov.
        destruct Hcov as [[?|?]|?]; [right; by left|by left|right; by right].
Qed.

Lemma elem_of_join (labels : list LabelRow) (mapping : list MappingRow) (r : Row) :
  r ∈ join labels mapping <->
  exists l, l ∈ labels
    ∧ indvdID r = l_indvdID l ∧ taxonID r = l_taxonID l ∧ rest r = l_rest l
    ∧ ((row_id r = None ∧ rsFile r = None
        ∧ forall m, m ∈ mapping -> m_indvdID m ≠ l_indvdID l)
       ∨ exists m, m ∈ mapping ∧ m_indvdID m = l_indvdID l
                   ∧ row_id r = Some (m_id m) ∧ rsFile r = Some (m_rsFile m)).
Proof.
  unfold join. rewrite list_elem_of_bind. split.
  - intros (l & Hr & Hl). exists l. split; [done|]. unfold join_row in Hr.
    destruct (filter _ mapping) as [|m0 ms] eqn:Hms.
    + apply list_elem_of_singleton in Hr as ->. simpl. split_and!; try done.
      left. split_and!; try done. intros m Hm Heq.
      assert (Hin : m ∈ filter (fun m => m_indvdID m = l_indvdID l) mapping)
        by (by apply list_elem_of_filter).
      rewrite Hms in Hin. by apply elem_of_nil in Hin.
    + rewrite <- Hms in Hr. apply list_elem_of_fmap in Hr as (m & -> & Hm).
      apply list_elem_of_filter in Hm as [Heq Hm]. simpl. split_and!; try done.
      right. by exists m.
  - intros (l & Hl & Hi & Ht & Hrest & Hcase). exists l. split; [|done].
    unfold join_row. destruct Hcase as [(Hid & Hf & Hno)|(m & Hm & Heq & Hid & Hf)].
    + destruct (filter _ mapping) as [|m0 ms] eqn:Hms.
      * apply list_elem_of_singleton. destruct r; simpl in *. by subst.
      * exfalso. assert (Hin : m0 ∈ filter (fun m => m_indvdID m = l_indvdID l) mapping)
          by (rewrite Hms; by left).
        apply list_elem_of_filter in Hin as [Heq Hin]. by apply (Hno m0).
    + assert (Hin : m ∈ filter (fun m => m_indvdID m = l_indvdID l) mapping)
        by (by apply list_elem_of_filter).
      destruct (filter _ mapping) as [|m0 ms] eqn:Hms; [by apply elem_of_nil in Hin|].
      apply list_elem_of_fmap. exists m. split; [|done].
      destruct r; simpl in *. by subst.
Qed.

(** The label table that [_load_labels] returns: no two rows agree on all
    columns; a row that names a scene file carries the id and the file of
    a mapping row and the species of a label row of the same individual;
    and every pair of a label row and a mapping row of one individual is
    represented by a row with their columns. *)
Theorem load_labels_table (fs : FS) (directory : string) (table : list Row) :
  _load_labels fs directory = Ok table ->
  exists df_labels df_mapping,
    read_csv_labels fs (path_join_all directory ["Field"; "train_data.csv"])
    = Ok df_labels
    ∧ read_csv_mapping fs (path_join_all directory ["Field"; "itc_rsFile.csv"])
      = Ok df_mapping
    ∧ NoDup (columns <$> table)
    ∧ (forall r f, r ∈ table -> rsFile r = Some f ->
         exists l m, l ∈ df_labels ∧ m ∈ df_mapping
           ∧ m_indvdID m = l_indvdID l ∧ indvdID r = l_indvdID l
           ∧ taxonID r = l_taxonID l
           ∧ row_id r = Some (m_id m) ∧ m_rsFile m = f)
    ∧ (forall l m, l ∈ df_labels -> m ∈ df_mapping ->
         m_indvdID m = l_indvdID l ->
         exists r, r ∈ table
           ∧ columns r = (l_taxonID l, l_rest l, Some (m_id m), Some (m_rsFile m))).
Proof.
  intros H. unfold _load_labels in H.
  destruct (read_csv_mapping fs _) as [df_mapping|] eqn:Hm; [|done].
  cbn [mbind result_bind] in H.
  destruct (read_csv_labels fs _) as [df_labels|] eqn:Hl; [|done].
  cbn [mbind result_bind] in H. inversion H; subst table. clear H.
  destruct (drop_duplicates_from_spec [] (join df_labels df_mapping))
    as (Hnd & Hsub & Hcov).
  exists df_labels, df_mapping. split_and!; try done.
  - intros r f Hr Hf. destruct (Hsub r Hr) as [Hj _].
    apply elem_of_join in Hj as (l & Hl' & Hi & Ht & _ & Hcase).
    destruct Hcase as [(_ & Hnone & _)|(m & Hm' & Heq & Hid & Hfile)];
      [congruence|].
    exists l, m. split_and!; try done. congruence.
  - intros l m Hl' Hm' Heq.
    set (r0 := {| indvdID := l_indvdID l; taxonID := l_taxonID l;
                  rest := l_rest l; row_id := Some (m_id m);
                  rsFile := Some (m_rsFile m) |}).
    assert (Hj : r0 ∈ join df_labels df_mapping).
    { apply elem_of_join. exists l. split_and!; try done. right. by exists m. }
    specialize (Hcov r0 Hj). simpl in Hcov.
    apply list_elem_of_fmap in Hcov as (r & Hc & Hr). by exists r.
Qed.

(** Unless the directories are missing, the archive is missing and
    downloading is on, [_verify] does not depend on the download function
    or on the checksum flag: it never downloads. *)
Theorem verify_never_downloads
    (dl : string -> string -> string -> option string -> FS -> result FS)
    (root : string) (split : Split) (download checksum checksum' : bool) (fs : FS) :
  download = false ∨ all_present root split fs
  ∨ path_exists fs (path_join root (filename (metadata split))) = true ->
  @_verify (with_download_url W dl) root split download checksum' fs
  = _verify root split download checksum fs.
Proof.
  intros Hcase. unfold _verify. cbn [with_download_url path_exists extract_archive FS].
  destruct (forallb _ _) eqn:Hall; [done|].
  destruct (path_exists fs _) eqn:Hzip; [done|].
  destruct Hcase as [->|[Hp|Hp]]; [done| |done].
  apply all_present_forallb in Hp. congruence.
Qed.

(** The object that [__init__] returns.  The disk is the one verification
    left; the images are the [*.tif] files under [RemoteSensing/RGB] of
    [train] for the train split and of the task's directory for the test
    split; geometries and labels are both present for train, geometries
    alone for test/task2, neither for test/task1. *)
Theorem init_object (root_dir : string) (sp : Split) (tk : Task)
    (tr : option (gmap string Value -> result (gmap string Value)))
    (dl ck : bool) (fs fs' : FS) (self : IDTReeS) :
  __init__ root_dir sp tk tr dl ck fs = Ok (self, fs') ->
  lazy_import "laspy" = Ok ()
  ∧ _verify root_dir sp dl ck fs = Ok fs'
  ∧ root self = root_dir ∧ split self = sp ∧ task self = tk
  ∧ images self
    = glob fs' (path_join_all
                  (path_join root_dir match sp with
                                      | train => "train"
                                      | test => task_name tk
                                      end)
                  ["RemoteSensing"; "RGB"; "*.tif"])
  ∧ match sp, tk with
    | train, _ => is_Some (geometries self) ∧ is_Some (labels self)
    | test, task2 => is_Some (geometries self) ∧ labels self = None
    | test, task1 => geometries self = None ∧ labels self = None
    end.
Proof.
  intros H. unfold __init__ in H.
  destruct (lazy_import "laspy") as [[]|]; [|done]. cbn [mbind result_bind] in H.
  destruct (_verify root_dir sp dl ck fs) as [fs1|]; [|done].
  cbn [mbind result_bind] in H.
  destruct (_load sp tk fs1 root_dir) as [[[imgs geoms] table]|] eqn:Hl; [|done].
  cbn [mbind result_bind] in H. inversion H; subst. cbn [root split task images
    geometries labels]. split_and!; try done.
  - unfold _load in Hl. destruct sp; [|destruct tk]; simpl in Hl.
    + destruct (_load_labels fs' _); [|done]. cbn [mbind result_bind] in Hl.
      destruct (_load_geometries train fs' _); [|done].
      cbn [mbind result_bind] in Hl. by inversion Hl.
    + by inversion Hl.
    + destruct (_load_geometries test fs' _); [|done].
      cbn [mbind result_bind] in Hl. by inversion Hl.
  - unfold _load in Hl. destruct sp; [|destruct tk]; simpl in Hl.
    + destruct (_load_labels fs' _); [|done]. cbn [mbind result_bind] in Hl.
      destruct (_load_geometries train fs' _); [|done].
      cbn [mbind result_bind] in Hl. inversion Hl; subst. by split.
    + by inversion Hl.
    + destruct (_load_geometries test fs' _); [|done].
      cbn [mbind result_bind] in Hl. inversion Hl; subst. by split.
Qed.

End Construction.

(** ** The further properties on concrete inputs *)

Section ConcreteEdges.

#[local] Existing Instance toy_world.

Lemma filter_boxes_keeps_boxes_inside_witness :
  Forall (in_image_closed (200, 200)) [mkBox 0 0 10 10; mkBox 190 190 200 200]
  ∧ Forall (fun b => 1 <= box_width b ∧ 1 <= box_height b)
           [mkBox 0 0 10 10; mkBox 190 190 200 200]
  ∧ length [3; 8] = length [mkBox 0 0 10 10; mkBox 190 190 200 200]
  ∧ _filter_boxes (200, 200) 1 (TensorN4 [mkBox 0 0 10 10; mkBox 190 190 200 200])
                  (Some [3; 8])
    = Ok (TensorN4 [mkBox 0 0 10 10; mkBox 190 190 200 200], Some [3; 8]).
Proof.
  assert (H1 : Forall (in_image_closed (200, 200))
                      [mkBox 0 0 10 10; mkBox 190 190 200 200]).
  { repeat constructor; simpl; lia. }
  assert (H2 : Forall (fun b => 1 <= box_width b ∧ 1 <= box_height b)
                      [mkBox 0 0 10 10; mkBox 190 190 200 200]).
  { repeat constructor; unfold box_width, box_height; simpl; lia. }
  split_and!; [exact H1|exact H2|reflexivity|].
  apply (filter_boxes_keeps_boxes_inside (200, 200) 1
           [mkBox 0 0 10 10; mkBox 190 190 200 200] [3; 8] H1 H2 eq_refl).
Defined.

Lemma filter_boxes_drops_boxes_outside_witness :
  0 < 1
  ∧ Forall (empty_in_image (200, 200)) [mkBox 300 10 350 20; mkBox 5 5 5 90]
  ∧ _filter_boxes (200, 200) 1 (TensorN4 [mkBox 300 10 350 20; mkBox 5 5 5 90])
                  (Some [3; 8])
    = Ok (TensorN4 [], Some []).
Proof.
  assert (H : Forall (empty_in_image (200, 200)) [mkBox 300 10 350 20; mkBox 5 5 5 90]).
  { repeat constructor; simpl; lia. }
  split_and!; [lia|exact H|].
  apply (filter_boxes_drops_boxes_outside (200, 200) 1
           [mkBox 300 10 350 20; mkBox 5 5 5 90] [3; 8]); [lia|exact H].
Defined.

Lemma filter_boxes_monotone_witness :
  1 <= 25
  ∧ _filter_boxes (200, 200) 1 (TensorN4 [mkBox 0 0 10 10; mkBox 20 20 90 90]) None
    = Ok (TensorN4 [mkBox 0 0 10 10; mkBox 20 20 90 90], None)
  ∧ _filter_boxes (200, 200) 25 (TensorN4 [mkBox 0 0 10 10; mkBox 20 20 90 90]) None
    = Ok (TensorN4 [mkBox 20 20 90 90], None)
  ∧ [mkBox 20 20 90 90] `sublist_of` [mkBox 0 0 10 10; mkBox 20 20 90 90].
Proof.
  split_and!; [lia|reflexivity|reflexivity|].
  apply (filter_boxes_monotone (200, 200) 1 25
           [mkBox 0 0 10 10; mkBox 20 20 90 90]); [lia|reflexivity|reflexivity].
Defined.

Lemma getitem_boxes_have_area_witness :
  getitem_sample toy_train toy_disk 0 = Ok toy_sample
  ∧ toy_sample !! "boxes"
    = Some (VBoxes (TensorN4 [mkBox 10 20 30 50; mkBox 190 190 200 200]))
  ∧ exists out,
      VBoxes (TensorN4 [mkBox 10 20 30 50; mkBox 190 190 200 200])
      = VBoxes (TensorN4 out)
      ∧ Forall (fun b => 1 <= box_width b ∧ 1 <= box_height b) out.
Proof.
  split; [reflexivity|]. split; [reflexivity|].
  destruct (@getitem_boxes_have_area toy_world toy_train toy_disk 0 toy_sample
              (VBoxes (TensorN4 [mkBox 10 20 30 50; mkBox 190 190 200 200]))
              eq_refl eq_refl)
    as (path & image & out & _ & _ & Hv & Hall).
  exists out. split; [exact Hv|].
  eapply Forall_impl; [exact Hall|]. intros b (Hw & Hh & _). split; [exact Hw|exact Hh].
Defined.

Lemma train_sample_aligned_with_rows_witness :
  split toy_train = train
  ∧ getitem_sample toy_train toy_disk 0 = Ok toy_sample
  ∧ exists out ls,
      toy_sample !! "boxes" = Some (VBoxes (TensorN4 out))
      ∧ toy_sample !! "label" = Some (VLabel ls).
Proof.
  split; [reflexivity|]. split; [reflexivity|].
  destruct (@train_sample_aligned_with_rows toy_world toy_train toy_disk 0
              toy_sample eq_refl eq_refl)
    as (path & image & table & transform & out & ls & _ & _ & _ & _ & Hb & Hl & _).
  exists out, ls. split; [exact Hb|exact Hl].
Defined.

Lemma class_names_of_train_sample_witness :
  split toy_train = train
  ∧ getitem_sample toy_train toy_disk 0 = Ok toy_sample
  ∧ exists ls names,
      toy_sample !! "label" = Some (VLabel ls) ∧ class_names ls = Ok names.
Proof.
  split; [reflexivity|]. split; [reflexivity|].
  destruct (@class_names_of_train_sample toy_world toy_train toy_disk 0
              toy_sample eq_refl eq_refl)
    as (path & image & table & transform & ls & _ & _ & _ & _ & Hl & Hn).
  exists ls. eexists. split; [exact Hl|exact Hn].
Defined.

Lemma test_boxes_from_geometries_witness :
  split toy_test2 = test ∧ task toy_test2 = task2
  ∧ getitem_sample toy_test2 toy_disk 0 = Ok toy_test2_sample
  ∧ exists out,
      toy_test2_sample !! "boxes" = Some (VBoxes (TensorN4 out))
      ∧ toy_test2_sample !! "label" = None.
Proof.
  split; [reflexivity|]. split; [reflexivity|]. split; [reflexivity|].
  destruct (@test_boxes_from_geometries toy_world toy_test2 toy_disk 0
              toy_test2_sample eq_refl eq_refl eq_refl)
    as (path & image & geoms & transform & out & _ & _ & _ & _ & Hb & Hl & _).
  exists out. split; [exact Hb|exact Hl].
Defined.

Lemma test_geometry_without_plot_id_witness :
  split toy_test2_without_plot = test
  ∧ Exists (fun kv : Z * Feature Z => prop_plotID kv.2 = None)
           (toy_geometries ++ [(3, mkFeature (Some 3) None [[(0, 0)]])])
  ∧ _load_boxes toy_test2_without_plot toy_disk toy_scene = Raise KeyError.
Proof.
  assert (Hex : Exists (fun kv : Z * Feature Z => prop_plotID kv.2 = None)
                  (toy_geometries ++ [(3, mkFeature (Some 3) None [[(0, 0)]])])).
  { apply Exists_app. right. apply Exists_cons_hd. reflexivity. }
  split; [reflexivity|]. split; [exact Hex|].
  apply (@test_geometry_without_plot_id toy_world toy_test2_without_plot toy_disk
           _ eq_refl eq_refl Hex).
Defined.

Lemma train_row_without_geometry_witness :
  split toy_missing_geometry = train
  ∧ toy_row "T9" "QUAL" 99 "MLBS_1.tif"
    ∈ rows_of_scene (basename toy_scene)
        [toy_row "T1" "ACRU" 7 "MLBS_1.tif"; toy_row "T9" "QUAL" 99 "MLBS_1.tif"]
  ∧ (99 ∉ fst <$> toy_geometries)
  ∧ _load_boxes toy_missing_geometry toy_disk toy_scene = Raise KeyError.
Proof.
  assert (Hr : toy_row "T9" "QUAL" 99 "MLBS_1.tif"
               ∈ rows_of_scene (basename toy_scene)
                   [toy_row "T1" "ACRU" 7 "MLBS_1.tif";
                    toy_row "T9" "QUAL" 99 "MLBS_1.tif"]).
  { apply list_elem_of_filter. split; [reflexivity|]. right. left. }
  assert (Hk : 99 ∉ fst <$> toy_geometries).
  { apply (bool_decide_unpack _). vm_compute. exact I. }
  split_and!; [reflexivity|exact Hr|exact Hk|].
  apply (@train_row_without_geometry toy_world toy_missing_geometry toy_disk
           toy_scene _ toy_geometries (toy_row "T9" "QUAL" 99 "MLBS_1.tif")
           eq_refl eq_refl eq_refl);
    [|exact Hr|right; exists 99; split; [reflexivity|exact Hk]].
  repeat constructor; discriminate.
Defined.

Lemma load_geometries_train_last_wins_witness :
  @_load_geometries toy_field_world train toy_field_disk "data/train"
  = Ok [toy_square 7 0 0 5 5; toy_square 8 190 190 260 240]
  ∧ NoDup [toy_square 7 0 0 5 5; toy_square 8 190 190 260 240].*1.
Proof.
  split; [reflexivity|].
  destruct (@load_geometries_train_last_wins toy_field_world toy_field_disk
              "data/train" [toy_square 7 0 0 5 5; toy_square 8 190 190 260 240]
              eq_refl)
    as (featss & _ & Hnd & _).
  exact Hnd.
Defined.

Lemma load_geometries_train_needs_ids_witness :
  comprehension (@fiona_open (toy_world_with toy_shapes_without_id [] []) toy_field_disk)
    (@glob (toy_world_with toy_shapes_without_id [] []) toy_field_disk
       (path_join_all "data/train" ["ITC"; "*.shp"]))
  = Ok [toy_shapes_without_id ""; toy_shapes_without_id ""]
  ∧ Exists (fun f : Feature Z => prop_id f = None)
           (concat [toy_shapes_without_id ""; toy_shapes_without_id ""])
  ∧ @_load_geometries (toy_world_with toy_shapes_without_id [] []) train
      toy_field_disk "data/train" = Raise KeyError.
Proof.
  assert (Hex : Exists (fun f : Feature Z => prop_id f = None)
                  (concat [toy_shapes_without_id ""; toy_shapes_without_id ""])).
  { apply Exists_cons_tl, Exists_cons_hd. reflexivity. }
  split; [reflexivity|]. split; [exact Hex|].
  apply (@load_geometries_train_needs_ids (toy_world_with toy_shapes_without_id [] [])
           toy_field_disk "data/train" _ eq_refl Hex).
Defined.

Lemma load_labels_table_witness :
  @_load_labels toy_field_world toy_field_disk "data/train"
  = Ok (drop_duplicates (join toy_labels_csv toy_mapping_csv))
  ∧ NoDup (columns <$> drop_duplicates (join toy_labels_csv toy_mapping_csv)).
Proof.
  split; [reflexivity|].
  destruct (@load_labels_table toy_field_world toy_field_disk "data/train"
              (drop_duplicates (join toy_labels_csv toy_mapping_csv)) eq_refl)
    as (dfl & dfm & _ & _ & Hnd & _).
  exact Hnd.
Defined.

Lemma verify_never_downloads_witness :
  (false = false
   ∨ @all_present toy_world "data" train []
   ∨ @path_exists toy_world []
       (path_join "data" (filename (metadata train))) = true)
  ∧ @_verify (with_download_url toy_world
                (fun _ _ _ _ _ => Raise (ExternalError "offline")))
      "data" train false true []
    = @_verify toy_world "data" train false false [].
Proof.
  split; [left; reflexivity|].
  apply (@verify_never_downloads toy_world
           (fun _ _ _ _ _ => Raise (ExternalError "offline"))
           "data" train false false true []).
  left. reflexivity.
Defined.

Lemma init_object_witness :
  @__init__ toy_field_world "data" train task1 None false false toy_field_disk
  = Ok (toy_field_object, toy_field_disk)
  ∧ @_verify toy_field_world "data" train false false toy_field_disk
    = Ok toy_field_disk
  ∧ is_Some (geometries toy_field_object) ∧ is_Some (labels toy_field_object).
Proof.
  split; [reflexivity|].
  destruct (@init_object toy_field_world "data" train task1 None false false
              toy_field_disk toy_field_disk toy_field_object eq_refl)
    as (_ & Hv & _ & _ & _ & _ & Hshape).
  split; [exact Hv|exact Hshape].
Defined.

End ConcreteEdges.

(** ** The annotation rows behind the boxes of a train sample *)

Section AnnotationCount.
Context `{W : World}.

#[local] Opaque class2idx idx2class.

(** The label table of a train-split object, with the tables it was read
    from. *)
Lemma init_train_labels (root_dir : string) (tk : Task)
    (tr : option (gmap string Value -> result (gmap string Value)))
    (dl ck : bool) (fs0 fs1 : FS) (self : IDTReeS) :
  __init__ root_dir train tk tr dl ck fs0 = Ok (self, fs1) ->
  split self = train
  ∧ exists df_labels df_mapping,
      read_csv_labels fs1 (path_join_all (path_join root_dir "train")
                                         ["Field"; "train_data.csv"])
      = Ok df_labels
      ∧ read_csv_mapping fs1 (path_join_all (path_join root_dir "train")
                                            ["Field"; "itc_rsFile.csv"])
        = Ok df_mapping
      ∧ _load_labels fs1 (path_join root_dir "train")
        = Ok (drop_duplicates (join df_labels df_mapping))
      ∧ labels self = Some (drop_duplicates (join df_labels df_mapping)).
Proof.
  intros H. unfold __init__ in H.
  destruct (lazy_import "laspy"); [|done]. cbn [mbind result_bind] in H.
  destruct (_verify root_dir train dl ck fs0) as [fs|]; [|done].
  cbn [mbind result_bind] in H.
  destruct (_load train tk fs root_dir) as [[[imgs geoms] table]|] eqn:Hl; [|done].
  cbn [mbind result_bind] in H. inversion H; subst. split; [done|].
  unfold _load in Hl. simpl in Hl.
  destruct (_load_labels fs1 (path_join root_dir "train")) as [tbl|] eqn:Ht; [|done].
  cbn [mbind result_bind] in Hl.
  destruct (_load_geometries train fs1 (path_join root_dir "train")); [|done].
  cbn [mbind result_bind] in Hl. inversion Hl; subst.
  pose proof Ht as Ht'. unfold _load_labels in Ht'.
  destruct (read_csv_mapping fs1 _) as [df_mapping|]; [|done].
  cbn [mbind result_bind] in Ht'.
  destruct (read_csv_labels fs1 _) as [df_labels|]; [|done].
  cbn [mbind result_bind] in Ht'. inversion Ht'; subst.
  by exists df_labels, df_mapping.
Qed.

Lemma survives_id_survives (geoms : option (list (Z * Feature Coord)))
    (transform : Coord -> Coord -> Z * Z) (size : Z * Z) (r : Row) :
  survives geoms transform size r = id_survives geoms transform size (row_id r).
Proof. done. Qed.

(** The rows of a scene in the loaded table whose boxes pass the filter
    are as many as the scene's annotation records whose boxes pass. *)
Lemma scene_rows_count (geoms : option (list (Z * Feature Coord)))
    (transform : Coord -> Coord -> Z * Z) (sz : Z * Z)
    (df_labels : list LabelRow) (df_mapping : list MappingRow)
    (base_path : string) :
  length (filter (fun r => survives geoms transform sz r = true)
                 (rows_of_scene base_path
                    (drop_duplicates (join df_labels df_mapping))))
  = size (filter (fun a => id_survives geoms transform sz (Some a.2) = true)
                 (scene_annotations df_labels df_mapping base_path)).
Proof.
  set (T := drop_duplicates (join df_labels df_mapping)).
  set (R := filter (fun r => survives geoms transform sz r = true)
                   (rows_of_scene base_path T)).
  destruct (drop_duplicates_from_spec [] (join df_labels df_mapping))
    as (Hnd & Hsub & Hcov). cbn zeta in *. fold (drop_duplicates (join df_labels df_mapping)) in *.
  fold T in Hnd, Hsub, Hcov.
  assert (HR : forall r, r ∈ R ->
             r ∈ T ∧ rsFile r = Some base_path
             ∧ survives geoms transform sz r = true
             ∧ exists l m, l ∈ df_labels ∧ m ∈ df_mapping
                 ∧ m_indvdID m = l_indvdID l ∧ m_rsFile m = base_path
                 ∧ columns r = (l_taxonID l, l_rest l, Some (m_id m), Some base_path)).
  { intros r Hr. apply list_elem_of_filter in Hr as [Hs Hr].
    apply list_elem_of_filter in Hr as [Hf Hr]. split_and!; try done.
    destruct (Hsub r Hr) as [Hj _].
    apply elem_of_join in Hj as (l & Hl & _ & Ht & Hrest & Hcase).
    destruct Hcase as [(_ & Hnone & _)|(m & Hm & Heq & Hid & Hfile)]; [congruence|].
    exists l, m. split_and!; try done; [congruence|].
    unfold columns. rewrite Ht, Hrest, Hid, Hf. done. }
  assert (Hset : filter (fun a => id_survives geoms transform sz (Some a.2) = true)
                        (scene_annotations df_labels df_mapping base_path)
                 = list_to_set (record_of <$> (columns <$> R))).
  { apply set_eq. intros a.
    rewrite elem_of_filter, elem_of_list_to_set. unfold scene_annotations.
    rewrite elem_of_list_to_set, list_elem_of_bind. split.
    - intros (Hs & l & Ha & Hl).
      apply list_elem_of_bind in Ha as (m & Ha & Hm).
      apply list_elem_of_singleton in Ha as ->.
      apply list_elem_of_filter in Hm as [[Heq Hfile] Hm].
      set (r0 := {| indvdID := l_indvdID l; taxonID := l_taxonID l;
                    rest := l_rest l; row_id := Some (m_id m);
                    rsFile := Some (m_rsFile m) |}).
      assert (Hj : r0 ∈ join df_labels df_mapping).
      { apply elem_of_join. exists l. split_and!; try done. right. by exists m. }
      specialize (Hcov r0 Hj). simpl in Hcov.
      apply list_elem_of_fmap in Hcov as (r & Hc & Hr).
      apply list_elem_of_fmap. exists (columns r). split; [by rewrite <- Hc|].
      apply list_elem_of_fmap. exists r. split; [done|].
      injection Hc as Ht Hrest Hid Hf.
      apply list_elem_of_filter. split.
      + rewrite survives_id_survives, <- Hid. done.
      + apply list_elem_of_filter. split; [congruence|done].
    - intros Ha. apply list_elem_of_fmap in Ha as (c & -> & Hc).
      apply list_elem_of_fmap in Hc as (r & -> & Hr).
      destruct (HR r Hr) as (_ & Hf & Hs & l & m & Hl & Hm & Heq & Hfile & Hc).
      rewrite Hc. unfold record_of. simpl. split.
      + rewrite survives_id_survives in Hs. injection Hc as _ _ Hid _.
        by rewrite Hid in Hs.
      + exists l. split; [|done]. apply list_elem_of_bind. exists m.
        split; [by apply list_elem_of_singleton|].
        by apply list_elem_of_filter. }
  rewrite Hset, size_list_to_set.
  - by rewrite !length_fmap.
  - apply NoDup_fmap_2_strong.
    + intros c1 c2 Hc1 Hc2 Hrec.
      apply list_elem_of_fmap in Hc1 as (r1 & -> & Hr1).
      apply list_elem_of_fmap in Hc2 as (r2 & -> & Hr2).
      destruct (HR r1 Hr1) as (_ & _ & _ & l1 & m1 & _ & _ & _ & _ & Hc1).
      destruct (HR r2 Hr2) as (_ & _ & _ & l2 & m2 & _ & _ & _ & _ & Hc2).
      rewrite Hc1, Hc2 in *. unfold record_of in Hrec. simpl in Hrec.
      by injection Hrec as -> -> ->.
    + eapply sublist_NoDup; [apply Hnd|].
      apply fmap_sublist. unfold R, rows_of_scene.
      etrans; apply sublist_filter.
Qed.

(** C5: for a train-split object built by [__init__] and every index at
    which [__getitem__] returns, the boxes of the sample are as many as
    the rows of the label table, which is the join of the two tables with
    duplicate rows dropped, whose [rsFile] is the base name of the scene's
    RGB file and whose derived box passes the filter; that is, as many as
    the scene's distinct annotation records whose box passes; and the
    labels are as many as the boxes. *)
Theorem train_box_count (root_dir : string) (tk : Task)
    (tr : option (gmap string Value -> result (gmap string Value)))
    (dl ck : bool) (fs0 fs1 fs : FS) (self : IDTReeS) (index : Z)
    (sample : gmap string Value) :
  __init__ root_dir train tk tr dl ck fs0 = Ok (self, fs1) ->
  getitem_sample self fs index = Ok sample ->
  exists df_labels df_mapping path image transform out ls,
    read_csv_labels fs1 (path_join_all (path_join root_dir "train")
                                       ["Field"; "train_data.csv"])
    = Ok df_labels
    ∧ read_csv_mapping fs1 (path_join_all (path_join root_dir "train")
                                          ["Field"; "itc_rsFile.csv"])
      = Ok df_mapping
    ∧ _load_labels fs1 (path_join root_dir "train")
      = Ok (drop_duplicates (join df_labels df_mapping))
    ∧ labels self = Some (drop_duplicates (join df_labels df_mapping))
    ∧ list_getitem (images self) index = Ok path
    ∧ _load_image fs path = Ok image
    ∧ rasterio_index fs path = Ok transform
    ∧ sample !! "boxes" = Some (VBoxes (TensorN4 out))
    ∧ sample !! "label" = Some (VLabel ls)
    ∧ length out
      = length (filter (fun r => survives (geometries self) transform
                                   ((shape image).1.2, (shape image).2) r = true)
                       (rows_of_scene (basename path)
                          (drop_duplicates (join df_labels df_mapping))))
    ∧ length out
      = size (filter (fun a => id_survives (geometries self) transform
                                 ((shape image).1.2, (shape image).2)
                                 (Some a.2) = true)
                     (scene_annotations df_labels df_mapping (basename path)))
    ∧ length ls = length out.
Proof.
  intros Hinit H.
  destruct (init_train_labels _ _ _ _ _ _ _ _ Hinit)
    as (Hsplit & df_labels & df_mapping & Hl & Hm & Hload & Htable).
  destruct (train_box_count_of_table _ _ _ _ Hsplit H)
    as (path & image & table & transform & out & ls
        & Hpath & Himage & Htable' & Htr & Hb & Hlab & Hcount & Hlen).
  assert (table = drop_duplicates (join df_labels df_mapping)) as -> by congruence.
  exists df_labels, df_mapping, path, image, transform, out, ls.
  split_and!; try done.
  by rewrite <- scene_rows_count.
Qed.

End AnnotationCount.

Section AnnotationCountConcrete.

Lemma train_box_count_witness :
  @__init__ toy_field_world "data" train task1 None false false toy_field_disk
  = Ok (toy_field_object, toy_field_disk)
  ∧ @getitem_sample toy_field_world toy_field_object toy_field_disk 0
    = Ok toy_field_sample
  ∧ exists out ls,
      toy_field_sample !! "boxes" = Some (VBoxes (TensorN4 out))
      ∧ toy_field_sample !! "label" = Some (VLabel ls)
      ∧ length out
        = size (filter (fun a => @id_survives toy_field_world
                                   (geometries toy_field_object)
                                   (fun x y => (y, x)) (200, 200) (Some a.2) = true)
                       (scene_annotations toy_labels_csv toy_mapping_csv
                                          "MLBS_1.tif"))
      ∧ length ls = length out.
Proof.
  split; [reflexivity|]. split; [reflexivity|].
  destruct (@train_box_count toy_field_world "data" task1 None false false
              toy_field_disk toy_field_disk toy_field_disk toy_field_object 0
              toy_field_sample eq_refl eq_refl)
    as (dfl & dfm & path & image & transform & out & ls
        & Hl & Hm & _ & _ & Hpath & Himage & Htr & Hb & Hlab & _ & Hcount & Hlen).
  injection Hl as <-. injection Hm as <-. injection Hpath as <-.
  injection Himage as <-. injection Htr as <-.
  exists out, ls. split_and!; [exact Hb|exact Hlab|exact Hcount|exact Hlen].
Defined.

End AnnotationCountConcrete.
